(** * video_downloader: a shallow embedding of [video_download.py] and [youtube.py]

    The two scripts queue downloads in a PySimpleGUI window and drain the
    queue in one worker thread.  The embedding keeps the control flow of the
    Python functions (try / except / finally, early [return], the [while
    True] loops) and replaces the external libraries (yt_dlp, whisper,
    ffmpeg, the file system) by scripted outcomes: every theorem quantifies
    over what those calls answer.

    Conventions.
    - A Python [str] is a Rocq [string] holding its UTF-8 bytes.  The only
      byte-level operation of the program, [sanitize_filename], removes ASCII
      characters, and no byte of a multi-byte UTF-8 sequence is ASCII, so
      working on bytes and on code points agree.
    - A Python [dict] with string keys is a [gmap string _].
    - A Python [float] is the rational it stands for ([Q]); rounding is not
      modelled.
    - What a task does to the outside world is recorded, in order, as a list
      of [effect]s.
    - The worker thread and the UI thread are modelled apart: the worker on
      the entries its queue delivers, the UI loop on the events its window
      delivers.  The abort flag, written by the UI thread, is an input of
      the worker.

    Left out: building and closing a [YoutubeDL] object (taken not to
    fail), the calls of the progress hook that yt_dlp makes while a download
    runs ([progress_hook] is modelled on its own), [setup_logging], the
    temporary directory of [DownloadManager], [handle_local_transcription]
    (never called) and the window layout. *)

From stdpp Require Import gmap strings list fin_maps pretty.
From Stdlib Require Import QArith Ascii String.
Close Scope Q_scope.
Open Scope string_scope.
Open Scope list_scope.
Set Warnings "-register-all".

(** ** Python values *)

(** The values that travel through dictionaries and window events. *)
Inductive pyval : Type :=
  | PNone
  | PBool (b : bool)
  | PInt (z : Z)
  | PFloat (q : Q)
  | PStr (s : string)
  | PList (l : list pyval)
  | PDict (d : gmap string pyval)
  | PHook.  (* the closure [lambda d: progress_hook(d, window)] *)

(** Python exceptions, with [str(e)] as payload.  Everything the worker can
    meet derives from [Exception]; yt_dlp's [DownloadError] is told apart
    because [youtube.py] has an [except] clause for it. *)
Inductive exn : Type :=
  | DownloadError (msg : string)
  | OtherException (cls msg : string).

Definition str_of_exn (e : exn) : string :=
  match e with
  | DownloadError msg => msg
  | OtherException _ msg => msg
  end.

(** What an external call answers. *)
Inductive result (A : Type) : Type :=
  | Ok (a : A)
  | Err (e : exn).
Arguments Ok {A} a.
Arguments Err {A} e.

(** [bool(v)] *)
Definition truthy (v : pyval) : bool :=
  match v with
  | PNone => false
  | PBool b => b
  | PInt z => negb (z =? 0)%Z
  | PFloat q => negb (Qeq_bool q 0)
  | PStr s => negb (String.eqb s "")
  | PList l => match l with [] => false | _ => true end
  | PDict d => negb (Nat.eqb (size d) 0)
  | PHook => true
  end.

(** [a or b] *)
Definition py_or (a b : pyval) : pyval := if truthy a then a else b.

(** [d.get(k)] and [d.get(k, dflt)] *)
Definition dict_get (d : gmap string pyval) (k : string) : pyval :=
  default PNone (d !! k).
Definition dict_get_default (d : gmap string pyval) (k : string) (dflt : pyval) : pyval :=
  default dflt (d !! k).

(** [d[k]]: a missing key raises [KeyError] *)
Definition dict_item (d : gmap string pyval) (k : string) : result pyval :=
  match d !! k with
  | Some v => Ok v
  | None => Err (OtherException "KeyError" k)
  end.

(** [v == s] for a string literal [s] *)
Definition py_eq_str (v : pyval) (s : string) : bool :=
  match v with
  | PStr t => String.eqb t s
  | _ => false
  end.

(** The number a value stands for in arithmetic ([bool] is a subclass of
    [int]); [None] for the values on which [/] raises [TypeError]. *)
Definition as_number (v : pyval) : option Q :=
  match v with
  | PBool b => Some (if b then 1 else 0)%Q
  | PInt z => Some (inject_Z z)
  | PFloat q => Some q
  | _ => None
  end.

(** [a / b]: true division, always a float. *)
Definition py_truediv (a b : pyval) : result Q :=
  match as_number a, as_number b with
  | Some x, Some y =>
      if Qeq_bool y 0
      then Err (OtherException "ZeroDivisionError" "division by zero")
      else Ok (x / y)%Q
  | _, _ => Err (OtherException "TypeError" "unsupported operand type(s) for /")
  end.

(** [needle in hay] on strings *)
Fixpoint str_contains (needle hay : string) : bool :=
  String.prefix needle hay ||
  match hay with
  | EmptyString => false
  | String _ hay' => str_contains needle hay'
  end.

(** ** [re.sub] with a bracket class

    [sanitize_filename] substitutes the empty string for every match of a
    pattern that is one bracket expression.  Inside brackets a backslash
    quotes the next character and every other character of this pattern
    stands for itself (there is no range and no class escape in it). *)

Definition dquote : ascii := "034"%char.

(** The characters between the brackets of the raw string literal. *)
Definition class_body : string := "\\/*?:" +:+ String dquote "<>|".

Fixpoint parse_class (body : string) : list ascii :=
  match body with
  | EmptyString => []
  | String c rest =>
      if Ascii.eqb c "\"%char then
        match rest with
        | EmptyString => [c]
        | String c' rest' => c' :: parse_class rest'
        end
      else c :: parse_class rest
  end.

Definition in_class (cls : list ascii) (c : ascii) : bool :=
  existsb (Ascii.eqb c) cls.

(** [re.sub('[cls]', repl, s)]: scan left to right; a character of the class
    is a match (one character long) and is replaced, any other character is
    copied. *)
Fixpoint re_sub_class (cls : list ascii) (repl : string) (s : string) : string :=
  match s with
  | EmptyString => EmptyString
  | String c rest =>
      if in_class cls c
      then repl +:+ re_sub_class cls repl rest
      else String c (re_sub_class cls repl rest)
  end.

(** [sanitize_filename], identical in [video_download.py] and [youtube.py]. *)
Definition sanitize_filename (filename : string) : string :=
  re_sub_class (parse_class class_body) "" filename.

(** The characters the specification lists as forbidden:
    backslash, slash, star, question mark, colon, double quote, less-than,
    greater-than and vertical bar. *)
Definition forbidden_chars : list ascii :=
  [ "\"%char; "/"%char; "*"%char; "?"%char; ":"%char; dquote;
    "<"%char; ">"%char; "|"%char ].

Definition is_forbidden (c : ascii) : bool := in_class forbidden_chars c.

(** The specification's reading of sanitization: keep, in order, the
    characters that are not forbidden. *)
Definition strip_forbidden (l : list ascii) : list ascii :=
  List.filter (fun c => negb (is_forbidden c)) l.

(** ** String helpers of the Python library used by the scripts *)

(** [s.lower()] on ASCII letters *)
Definition ascii_lower (c : ascii) : ascii :=
  let n := nat_of_ascii c in
  if (65 <=? n)%nat && (n <=? 90)%nat then ascii_of_nat (n + 32) else c.

Fixpoint str_lower (s : string) : string :=
  match s with
  | EmptyString => EmptyString
  | String c rest => String (ascii_lower c) (str_lower rest)
  end.

(** [s.endswith(suffix)] *)
Definition str_endswith (s suffix : string) : bool :=
  (String.length suffix <=? String.length s)%nat &&
  String.eqb
    (String.substring (String.length s - String.length suffix) (String.length suffix) s)
    suffix.

(** [s.rfind(c)] for a one-character needle *)
Fixpoint str_rfind (c : ascii) (s : string) : option nat :=
  match s with
  | EmptyString => None
  | String a rest =>
      match str_rfind c rest with
      | Some i => Some (S i)
      | None => if Ascii.eqb a c then Some 0%nat else None
      end
  end.

Fixpoint str_exists (p : ascii -> bool) (s : string) : bool :=
  match s with
  | EmptyString => false
  | String a rest => p a || str_exists p rest
  end.

(** [os.path.join(a, b)] and [os.path.splitext(p)], as [posixpath] has them. *)
Definition os_path_join (a b : string) : string :=
  if String.prefix "/" b then b
  else if String.eqb a "" || str_endswith a "/" then a +:+ b
  else a +:+ "/" +:+ b.

Definition os_path_splitext (p : string) : string * string :=
  let base_start := match str_rfind "/"%char p with Some i => S i | None => 0%nat end in
  match str_rfind "."%char p with
  | Some dot =>
      if str_exists (fun a => negb (Ascii.eqb a "."%char))
           (String.substring base_start (dot - base_start) p)
      then (String.substring 0 dot p, String.substring dot (String.length p - dot) p)
      else (p, "")
  | None => (p, "")
  end.

(** [os.path.basename(p)] *)
Definition os_path_basename (p : string) : string :=
  match str_rfind "/"%char p with
  | Some i => String.substring (S i) (String.length p - S i) p
  | None => p
  end.

(** [s.strip()], on the ASCII white space characters *)
Definition is_space (c : ascii) : bool :=
  let n := nat_of_ascii c in
  (n =? 32)%nat || ((9 <=? n)%nat && (n <=? 13)%nat).

Fixpoint str_lstrip (s : string) : string :=
  match s with
  | EmptyString => EmptyString
  | String c rest => if is_space c then str_lstrip rest else s
  end.

Fixpoint str_rstrip (s : string) : string :=
  match s with
  | EmptyString => EmptyString
  | String c rest =>
      match str_rstrip rest with
      | EmptyString => if is_space c then EmptyString else String c EmptyString
      | r => String c r
      end
  end.

Definition py_strip (s : string) : string := str_rstrip (str_lstrip s).

(** [s.split(sep)] for a one-character separator *)
Fixpoint str_split (sep : ascii) (s : string) : list string :=
  match s with
  | EmptyString => [EmptyString]
  | String c rest =>
      if Ascii.eqb c sep then EmptyString :: str_split sep rest
      else
        match str_split sep rest with
        | [] => [String c EmptyString]
        | piece :: pieces => String c piece :: pieces
        end
  end.

(** ** Effects and the task monad *)

(** Calls that leave the program.  A [YoutubeDL] object is identified with
    the option dictionary it was built from. *)
Inductive ext_call : Type :=
  | OsMakedirs (path : string)
  | WhisperLoadModel (name : string)
  | YdlExtractInfo (ydl : gmap string pyval) (url : string) (download : bool)
  | YdlPrepareFilename (ydl : gmap string pyval)
  | YdlDownload (ydl : gmap string pyval) (urls : list string)
  | WhisperTranscribe (file : string)
  | WriteTextFile (path text : string)
  | SubprocessPopen (cmd : list string)
  | OsPathExists (path : string).

(** What a task does, in order.  [ExtCall c None] is a call that came back,
    [ExtCall c (Some e)] a call that raised [e]. *)
Inductive effect : Type :=
  | LoggingInfo (msg : string)
  | LoggingError (msg : string)
  | WriteEventValue (key : string) (value : pyval)
  | ExtCall (c : ext_call) (raised : option exn)
  | AbortIsSet (b : bool)
  | TaskDone.

(** How a block of statements ends. *)
Inductive outcome (R A : Type) : Type :=
  | Normal (a : A)
  | Returning (r : R)
  | Raised (e : exn).
Arguments Normal {R A} a.
Arguments Returning {R A} r.
Arguments Raised {R A} e.

(** A block inside a function returning [R]: the effects it had and how it
    ended. *)
Definition M (R A : Type) : Type := (list effect * outcome R A)%type.

#[global] Instance M_ret {R} : MRet (M R) := fun A a => ([], Normal a).

#[global] Instance M_bind {R} : MBind (M R) := fun A B f m =>
  match m with
  | (t, Normal a) => let '(t', o) := f a in (t ++ t', o)
  | (t, Returning r) => (t, Returning r)
  | (t, Raised e) => (t, Raised e)
  end.

Definition effects {R A} (m : M R A) : list effect := fst m.
Definition ending {R A} (m : M R A) : outcome R A := snd m.

Definition emit {R} (e : effect) : M R unit := ([e], Normal tt).
Definition return_ {R A} (r : R) : M R A := ([], Returning r).
Definition raise {R A} (e : exn) : M R A := ([], Raised e).

(** An external call with its scripted answer. *)
Definition ext {R A} (c : ext_call) (answer : result A) : M R A :=
  match answer with
  | Ok a => ([ExtCall c None], Normal a)
  | Err e => ([ExtCall c (Some e)], Raised e)
  end.

(** A pure operation that may raise. *)
Definition lift_result {R A} (r : result A) : M R A :=
  match r with
  | Ok a => ([], Normal a)
  | Err e => ([], Raised e)
  end.

(** [try: body  except Exception as e: handler e] *)
Definition try_except {R A} (body : M R A) (handler : exn -> M R A) : M R A :=
  match body with
  | (t, Raised e) => let '(t', o) := handler e in (t ++ t', o)
  | other => other
  end.

(** [try: body  finally: fin].  The [finally] block runs however the body
    ended and keeps that ending unless it returns or raises itself. *)
Definition try_finally {R A} (body : M R A) (fin : M R unit) : M R A :=
  let '(t, o) := body in
  match fin with
  | (t', Normal _) => (t ++ t', o)
  | (t', Returning r) => (t ++ t', Returning r)
  | (t', Raised e) => (t ++ t', Raised e)
  end.

(** The call of a function whose body is [body]: falling off the end and
    [return] both give the result to the caller. *)
Definition call_fn {R R' : Type} (body : M R R) : M R' R :=
  match body with
  | (t, Normal r) => (t, Normal r)
  | (t, Returning r) => (t, Normal r)
  | (t, Raised e) => (t, Raised e)
  end.

(** [window.write_event_value(key, value)] and the [logging] calls *)
Definition write_event_value {R} (key : string) (value : pyval) : M R unit :=
  emit (WriteEventValue key value).
Definition logging_info {R} (msg : string) : M R unit := emit (LoggingInfo msg).
Definition logging_error {R} (msg : string) : M R unit := emit (LoggingError msg).

(** ** [progress_hook], identical in both files *)

Definition progress_hook (d : gmap string pyval) : M unit unit :=
  status ← lift_result (dict_item d "status");
  if py_eq_str status "downloading" then
    let total_bytes := py_or (dict_get d "total_bytes") (dict_get d "total_bytes_estimate") in
    let downloaded_bytes := dict_get_default d "downloaded_bytes" (PInt 0) in
    if truthy total_bytes then
      ratio ← lift_result (py_truediv downloaded_bytes total_bytes);
      let percent_float := (ratio * 100)%Q in
      write_event_value "-PROGRESS-" (PFloat percent_float)
    else mret tt
  else
    status' ← lift_result (dict_item d "status");
    if py_eq_str status' "finished" then
      write_event_value "-PROGRESS-" (PInt 100)
    else mret tt.

(** [abort_event.is_set()]: the flag belongs to the UI thread, so what the
    worker reads is scripted like an external answer. *)
Definition abort_is_set {R} (b : bool) : M R bool := ([AbortIsSet b], Normal b).

(** [os.makedirs] and the other file-system calls raise [OSError]s, never a
    [DownloadError]: their scripted failure is the class and the message. *)
Definition os_answer (failure : option (string * string)) : result unit :=
  match failure with
  | None => Ok tt
  | Some (cls, msg) => Err (OtherException cls msg)
  end.

(** How the worker thread ends on a finite supply of queue entries. *)
Inductive worker_status : Type :=
  | Stopped            (* took the [None] sentinel and left the loop *)
  | Blocked            (* waits in [download_queue.get()] for an entry that never comes *)
  | Died (e : exn).    (* an exception left the loop *)

(** * video_download.py *)
Module VideoDownload.

(** ** Configuration *)

Definition CONFIG_FILE : string := "config.json".

Definition DEFAULT_CONFIG : pyval :=
  PDict {[ "default_output_path" := PStr "downloads";
           "default_resolution" := PStr "720";
           "default_model" := PStr "turbo";
           "temp_directory" := PNone;
           "keep_temp_files" := PBool false ]}.

(** A file is seen through [json.load]: either it holds the JSON text of a
    value, or text that [json.load] rejects.  [json.dump] followed by
    [json.load] is taken to give the value back. *)
Inductive file : Type :=
  | JsonFile (v : pyval)
  | NotJson (text : string).

Definition open_read (fs : gmap string file) (path : string) : result file :=
  match fs !! path with
  | Some f => Ok f
  | None => Err (OtherException "FileNotFoundError" path)
  end.

Definition json_load (f : file) : result pyval :=
  match f with
  | JsonFile v => Ok v
  | NotJson text => Err (OtherException "JSONDecodeError" text)
  end.

Definition save_config (config : pyval) (fs : gmap string file) : gmap string file :=
  <[CONFIG_FILE := JsonFile config]> fs.

Definition is_FileNotFoundError (e : exn) : bool :=
  match e with
  | OtherException cls _ => String.eqb cls "FileNotFoundError"
  | DownloadError _ => false
  end.

(** [load_config]: the value read and the file system afterwards. *)
Definition load_config (fs : gmap string file) : result pyval * gmap string file :=
  match open_read fs CONFIG_FILE with
  | Ok f =>
      match json_load f with
      | Ok v => (Ok v, fs)
      | Err e => (Err e, fs)
      end
  | Err e =>
      if is_FileNotFoundError e
      then (Ok DEFAULT_CONFIG, save_config DEFAULT_CONFIG fs)
      else (Err e, fs)
  end.

(** ** Queue items *)

Record download_request : Type := {
  url : string;
  output_path : string;
  resolution : string;
  audio_only : bool;
  filename : string;
  transcribe : bool;
  model_choice : string
}.

(** The two shapes of dictionary that [main] puts on the queue: the one
    with a ['url'] key and the one with a ['local_file'] key. *)
Inductive queue_item : Type :=
  | DownloadItem (r : download_request)
  | LocalItem (local_file : string) (local_model_choice : string).

(** ** Scripted answers of the outside world for one task *)

Record answers : Type := {
  a_makedirs : option (string * string);
  a_load_model : result unit;
  a_extract_info : result (option (gmap string string));
  a_prepare_filename : result string;
  a_abort : bool;
  a_transcribe : result string;
  a_write_transcript : option (string * string);
  a_popen : result (Z * string);
  a_exists : bool
}.

(** ** [download_video] *)

Definition ydl_opts (r : download_request) : gmap string pyval :=
  let format_option :=
    if audio_only r then "bestaudio/best"
    else "bestvideo[height<=" +:+ resolution r +:+ "]+bestaudio/best" in
  let ext := if audio_only r then ".mp3" else ".mp4" in
  let opts0 : gmap string pyval :=
    {[ "format" := PStr format_option;
       "outtmpl" := PStr (os_path_join (output_path r) "%(title)s%(ext)s");
       "progress_hooks" := PList [PHook];
       "noplaylist" := PBool true ]} in
  let opts1 : gmap string pyval :=
    if audio_only r then
      {[ "postprocessors" :=
           PList [PDict {[ "key" := PStr "FFmpegExtractAudio";
                           "preferredcodec" := PStr "mp3";
                           "preferredquality" := PStr "192" ]}] ]} ∪ opts0
    else
      {[ "format" := PStr format_option;
         "merge_output_format" := PStr "mp4";
         "postprocessor_args" := PList [PStr "-c:a"; PStr "aac"; PStr "-b:a"; PStr "192k"];
         "prefer_ffmpeg" := PBool true ]} ∪ opts0 in
  if negb (String.eqb (filename r) "") then
    let safe_filename := sanitize_filename (filename r) in
    <["outtmpl" := PStr (os_path_join (output_path r) (safe_filename +:+ ext))]> opts1
  else opts1.

(** The statements of the [with yt_dlp.YoutubeDL(ydl_opts) as ydl:] block;
    the value is [downloaded_file].  An [info] of [None] has no [get]. *)
Definition download_block (r : download_request) (a : answers) : M unit string :=
  let ydl := ydl_opts r in
  info ← ext (YdlExtractInfo ydl (url r) true) (a_extract_info a);
  video_title ←
    match info with
    | Some d => mret (default "Unknown Title" (d !! "title"))
    | None => raise (OtherException "AttributeError"
                       "'NoneType' object has no attribute 'get'")
    end;
  write_event_value "-MESSAGE-" (PStr ("Downloading: " +:+ video_title));;
  downloaded_file ← ext (YdlPrepareFilename ydl) (a_prepare_filename a);
  mret (if audio_only r
        then (os_path_splitext downloaded_file).1 +:+ ".mp3"
        else downloaded_file).

(** The transcription step after a download. *)
Definition transcription_block (downloaded_file : string) (a : answers) : M unit unit :=
  write_event_value "-MESSAGE-" (PStr "Starting transcription...");;
  try_except
    (text ← ext (WhisperTranscribe downloaded_file) (a_transcribe a);
     let transcript_path := (os_path_splitext downloaded_file).1 +:+ "_transcript.txt" in
     ext (WriteTextFile transcript_path (py_strip text)) (os_answer (a_write_transcript a));;
     write_event_value "-MESSAGE-" (PStr ("Transcription saved to: " +:+ transcript_path)))
    (fun e =>
       write_event_value "-MESSAGE-" (PStr ("Transcription error: " +:+ str_of_exn e))).

(** The body of the outer [try]. *)
Definition download_body (r : download_request) (a : answers) : M unit unit :=
  ext (OsMakedirs (output_path r)) (os_answer (a_makedirs a));;
  logging_info ("Attempting to download from URL: " +:+ url r);;
  whisper_model ←
    (if audio_only r && transcribe r then
       try_except
         (write_event_value "-MESSAGE-"
            (PStr ("Loading Whisper model: " +:+ model_choice r));;
          ext (WhisperLoadModel (model_choice r)) (a_load_model a);;
          write_event_value "-MESSAGE-" (PStr "Whisper model loaded successfully");;
          mret true)
         (fun e =>
            write_event_value "-MESSAGE-"
              (PStr ("Error loading Whisper model: " +:+ str_of_exn e));;
            return_ tt)
     else mret false);
  downloaded_file ← download_block r a;
  aborted ← abort_is_set (a_abort a);
  if (aborted : bool) then
    write_event_value "-MESSAGE-" (PStr "Download aborted.");;
    return_ tt
  else
    (if audio_only r && transcribe r && whisper_model
        && negb (String.eqb downloaded_file "")
     then transcription_block downloaded_file a
     else mret tt);;
    write_event_value "-MESSAGE-"
      (PStr ("Download complete! File saved to: " +:+ output_path r));;
    write_event_value "-PROGRESS-" (PInt 100).

Definition download_video (r : download_request) (a : answers) : M unit unit :=
  call_fn
    (try_finally
       (try_except (download_body r a)
          (fun e =>
             let error_msg := "An error occurred: " +:+ str_of_exn e in
             logging_error error_msg;;
             write_event_value "-MESSAGE-" (PStr error_msg)))
       (write_event_value "-DOWNLOAD-COMPLETE-" (PBool true))).

(** ** [convert_to_mp3] and [process_local_transcription_file] *)

Definition convert_to_mp3 (input_file output_file : string) (a : answers) : M unit bool :=
  call_fn
    (try_except
       (let cmd := ["ffmpeg"; "-i"; input_file; "-vn"; "-acodec"; "libmp3lame";
                    "-ab"; "192k"; "-ar"; "44100"; "-y"; output_file] in
        process ← ext (SubprocessPopen cmd) (a_popen a);
        let '(returncode, stderr) := (process : Z * string) in
        if negb (returncode =? 0)%Z then
          logging_error ("FFmpeg error: " +:+ stderr);;
          return_ false
        else
          found ← ext (OsPathExists output_file) (Ok (a_exists a));
          return_ found)
       (fun e =>
          logging_error ("Conversion error: " +:+ str_of_exn e);;
          return_ false)).

Definition process_local_transcription_file
    (file_path0 model : string) (a : answers) : M unit unit :=
  call_fn
    (write_event_value "-MESSAGE-" (PStr ("Processing transcription for: " +:+ file_path0));;
     write_event_value "-PROGRESS-" (PInt 0);;
     file_path ←
       (if negb (str_endswith (str_lower file_path0) ".mp3") then
          write_event_value "-MESSAGE-" (PStr ("Converting to MP3: " +:+ file_path0));;
          let output_mp3 := (os_path_splitext file_path0).1 +:+ "_converted.mp3" in
          converted ← convert_to_mp3 file_path0 output_mp3 a;
          if negb (converted : bool) then
            write_event_value "-MESSAGE-" (PStr ("Conversion failed for " +:+ file_path0));;
            write_event_value "-PROGRESS-" (PInt 0);;
            return_ tt
          else mret output_mp3
        else mret file_path0);
     try_except
       (write_event_value "-MESSAGE-" (PStr ("Loading Whisper model: " +:+ model));;
        write_event_value "-PROGRESS-" (PInt 20);;
        ext (WhisperLoadModel model) (a_load_model a);;
        write_event_value "-MESSAGE-" (PStr "Whisper model loaded successfully"))
       (fun e =>
          write_event_value "-MESSAGE-" (PStr ("Error loading model: " +:+ str_of_exn e));;
          write_event_value "-PROGRESS-" (PInt 0);;
          return_ tt);;
     try_except
       (write_event_value "-MESSAGE-" (PStr ("Starting transcription for: " +:+ file_path));;
        write_event_value "-PROGRESS-" (PInt 50);;
        text ← ext (WhisperTranscribe file_path) (a_transcribe a);
        let transcript_path := (os_path_splitext file_path).1 +:+ "_transcript.txt" in
        ext (WriteTextFile transcript_path (py_strip text)) (os_answer (a_write_transcript a));;
        write_event_value "-MESSAGE-" (PStr ("Transcription saved: " +:+ transcript_path));;
        write_event_value "-PROGRESS-" (PInt 100))
       (fun e =>
          write_event_value "-MESSAGE-" (PStr ("Transcription error: " +:+ str_of_exn e));;
          write_event_value "-PROGRESS-" (PInt 0))).

(** ** The worker loop *)

(** One iteration's task: the [if 'local_file' in item: ... else: ...]. *)
Definition process_item (item : queue_item) (a : answers) : M unit unit :=
  match item with
  | LocalItem file_path model => process_local_transcription_file file_path model a
  | DownloadItem r => download_video r a
  end.

(** [process_download_queue] on the entries that [download_queue.get()]
    will deliver, each with the answers the outside world gives while it
    is processed.  [None] is the sentinel. *)
Fixpoint process_download_queue (entries : list (option (queue_item * answers)))
    : list effect * worker_status :=
  match entries with
  | [] => ([], Blocked)
  | None :: _ => ([], Stopped)
  | Some (item, a) :: rest =>
      match process_item item a with
      | (t, Raised e) => (t, Died e)
      | (t, _) =>
          let '(t', st) := process_download_queue rest in
          (t ++ TaskDone :: t', st)
      end
  end.


(** ** The event loop of [main] *)

(** [values], as far as the handlers read it. *)
Record form_values : Type := {
  v_url : string;
  v_output : string;
  v_resolution : string;
  v_audio : bool;
  v_filename : string;
  v_transcribe : bool;
  v_model : string
}.

(** What [window.read()] delivers.  [ADD_LOCAL] carries what the file
    dialog answers, [PROGRESS] and [MESSAGE] carry [values[event]]. *)
Inductive event : Type :=
  | WINDOW_CLOSED
  | EXIT
  | ADD_QUEUE
  | ADD_LOCAL (files : option string)
  | CLEAR_QUEUE
  | START_DOWNLOADS
  | ABORT
  | PROGRESS (value : pyval)
  | MESSAGE (value : pyval)
  | DOWNLOAD_COMPLETE
  | AUDIO
  | OTHER (key : string).

Record ui_state : Type := {
  queue_list : list queue_item;             (* the local [queue_list] *)
  queue_listbox : list string;              (* what [window[-QUEUE-]] shows *)
  log_pane : list pyval;                    (* what was printed to [window[-LOG-]] *)
  progress_bar : pyval;                     (* [window[-PROGRESS-]] *)
  download_queue : list (option queue_item);(* what was put on the queue, oldest first *)
  abort_event : bool;
  popups : list string;                     (* [sg.popup_error] texts *)
  widget_updates : list (string * pyval)    (* the other [update] calls, in order *)
}.

Definition initial_state : ui_state :=
  {| queue_list := []; queue_listbox := []; log_pane := []; progress_bar := PInt 0;
     download_queue := []; abort_event := false; popups := []; widget_updates := [] |}.

Inductive step_result : Type :=
  | Continue (st : ui_state)
  | Break (st : ui_state)
  | Crash (st : ui_state) (e : exn).

Definition set_queue_list (l : list queue_item) (st : ui_state) : ui_state :=
  {| queue_list := l; queue_listbox := queue_listbox st; log_pane := log_pane st;
     progress_bar := progress_bar st; download_queue := download_queue st;
     abort_event := abort_event st; popups := popups st;
     widget_updates := widget_updates st |}.

Definition set_queue_listbox (l : list string) (st : ui_state) : ui_state :=
  {| queue_list := queue_list st; queue_listbox := l; log_pane := log_pane st;
     progress_bar := progress_bar st; download_queue := download_queue st;
     abort_event := abort_event st; popups := popups st;
     widget_updates := widget_updates st |}.

Definition log_print (v : pyval) (st : ui_state) : ui_state :=
  {| queue_list := queue_list st; queue_listbox := queue_listbox st;
     log_pane := log_pane st ++ [v];
     progress_bar := progress_bar st; download_queue := download_queue st;
     abort_event := abort_event st; popups := popups st;
     widget_updates := widget_updates st |}.

Definition set_progress_bar (v : pyval) (st : ui_state) : ui_state :=
  {| queue_list := queue_list st; queue_listbox := queue_listbox st; log_pane := log_pane st;
     progress_bar := v; download_queue := download_queue st;
     abort_event := abort_event st; popups := popups st;
     widget_updates := widget_updates st |}.

Definition queue_put (entries : list (option queue_item)) (st : ui_state) : ui_state :=
  {| queue_list := queue_list st; queue_listbox := queue_listbox st; log_pane := log_pane st;
     progress_bar := progress_bar st; download_queue := download_queue st ++ entries;
     abort_event := abort_event st; popups := popups st;
     widget_updates := widget_updates st |}.

Definition set_abort (st : ui_state) : ui_state :=
  {| queue_list := queue_list st; queue_listbox := queue_listbox st; log_pane := log_pane st;
     progress_bar := progress_bar st; download_queue := download_queue st;
     abort_event := true; popups := popups st;
     widget_updates := widget_updates st |}.

Definition popup_error (text : string) (st : ui_state) : ui_state :=
  {| queue_list := queue_list st; queue_listbox := queue_listbox st; log_pane := log_pane st;
     progress_bar := progress_bar st; download_queue := download_queue st;
     abort_event := abort_event st; popups := popups st ++ [text];
     widget_updates := widget_updates st |}.

Definition widget_update (key : string) (v : pyval) (st : ui_state) : ui_state :=
  {| queue_list := queue_list st; queue_listbox := queue_listbox st; log_pane := log_pane st;
     progress_bar := progress_bar st; download_queue := download_queue st;
     abort_event := abort_event st; popups := popups st;
     widget_updates := widget_updates st ++ [(key, v)] |}.

(** One element of the list comprehension that fills the list box,
    [item.get('url', f'Transcribe: {os.path.basename(item['local_file'])}')].
    Python evaluates the default argument before it calls [get], so
    [item['local_file']] is looked up for every item, and a download item
    has no such key. *)
Definition queue_label (item : queue_item) : result string :=
  match item with
  | DownloadItem _ => Err (OtherException "KeyError" "'local_file'")
  | LocalItem file_path _ => Ok ("Transcribe: " +:+ os_path_basename file_path)
  end.

Fixpoint queue_labels (l : list queue_item) : result (list string) :=
  match l with
  | [] => Ok []
  | item :: rest =>
      match queue_label item with
      | Err e => Err e
      | Ok label =>
          match queue_labels rest with
          | Err e => Err e
          | Ok labels => Ok (label :: labels)
          end
      end
  end.

Definition request_of_values (values : form_values) : download_request :=
  {| url := v_url values; output_path := v_output values;
     resolution := v_resolution values; audio_only := v_audio values;
     filename := v_filename values; transcribe := v_transcribe values;
     model_choice := v_model values |}.

(** The [for file_path in files.split(';')] loop of the [-ADD-LOCAL-]
    handler. *)
Fixpoint add_local_files (paths : list string) (model : string) (st : ui_state)
    : step_result :=
  match paths with
  | [] => Continue st
  | file_path :: rest =>
      if negb (String.eqb file_path "") then
        let st1 := set_queue_list (queue_list st ++ [LocalItem file_path model]) st in
        match queue_labels (queue_list st1) with
        | Err e => Crash st1 e
        | Ok labels =>
            let st2 := set_queue_listbox labels st1 in
            let st3 := log_print (PStr ("Queued for transcription: " +:+ file_path)) st2 in
            add_local_files rest model st3
        end
      else add_local_files rest model st
  end.

(** One turn of the [while True] loop of [main]: the handler of the event
    that [window.read()] returned. *)
Definition main_step (st : ui_state) (ev : event) (values : form_values) : step_result :=
  match ev with
  | WINDOW_CLOSED | EXIT => Break (queue_put [None] st)
  | ADD_QUEUE =>
      if negb (String.eqb (v_url values) "") then
        let st1 := set_queue_list (queue_list st ++ [DownloadItem (request_of_values values)]) st in
        match queue_labels (queue_list st1) with
        | Err e => Crash st1 e
        | Ok labels =>
            let st2 := set_queue_listbox labels st1 in
            let st3 := widget_update "-URL-" (PStr "") st2 in
            Continue (log_print (PStr ("Added to queue: " +:+ v_url values)) st3)
        end
      else Continue (popup_error "Please enter a video URL." st)
  | ADD_LOCAL files =>
      match files with
      | Some fs =>
          if negb (String.eqb fs "")
          then add_local_files (str_split ";"%char fs) (v_model values) st
          else Continue st
      | None => Continue st
      end
  | CLEAR_QUEUE =>
      let st1 := set_queue_list [] st in
      let st2 := set_queue_listbox [] st1 in
      Continue (log_print (PStr "Queue cleared.") st2)
  | START_DOWNLOADS =>
      match queue_list st with
      | _ :: _ =>
          let st1 := queue_put (map Some (queue_list st)) st in
          let st2 := log_print
                       (PStr ("Started processing " +:+ pretty (List.length (queue_list st1))
                              +:+ " items.")) st1 in
          let st3 := set_queue_list [] st2 in
          Continue (set_queue_listbox [] st3)
      | [] =>
          if negb (String.eqb (v_url values) "") then
            let st1 := queue_put [Some (DownloadItem (request_of_values values))] st in
            Continue (log_print (PStr ("Started processing: " +:+ v_url values)) st1)
          else
            Continue (popup_error "Please enter a video URL or add items to the queue." st)
      end
  | ABORT =>
      Continue (log_print (PStr "Aborting downloads...") (set_abort st))
  | PROGRESS value => Continue (set_progress_bar value st)
  | MESSAGE value => Continue (log_print value st)
  | DOWNLOAD_COMPLETE => Continue (set_progress_bar (PInt 0) st)
  | AUDIO =>
      let st1 := widget_update "-TRANSCRIBE-.disabled" (PBool (negb (v_audio values))) st in
      if negb (v_audio values)
      then Continue (widget_update "-TRANSCRIBE-.value" (PBool false) st1)
      else Continue st1
  | OTHER _ => Continue st
  end.

(** The loop on the events that [window.read()] will deliver.  Running out
    of events stands for a window that stays open. *)
Fixpoint main_loop (st : ui_state) (inputs : list (event * form_values)) : step_result :=
  match inputs with
  | [] => Continue st
  | (ev, values) :: rest =>
      match main_step st ev values with
      | Continue st' => main_loop st' rest
      | stop => stop
      end
  end.

End VideoDownload.

(** * youtube.py *)
Module Youtube.

Record download_request : Type := {
  url : string;
  output_path : string;
  resolution : string;
  audio_only : bool;
  filename : string;
  subtitles : bool
}.

(** Scripted answers for one task.  The [retry] fields answer the calls of
    the [except DownloadError] clause. *)
Record answers : Type := {
  a_makedirs : option (string * string);
  a_extract_info : result (option (gmap string string));
  a_download : result unit;
  a_abort : bool;
  a_retry_download : result unit;
  a_retry_abort : bool
}.

Definition ydl_opts (r : download_request) : gmap string pyval :=
  let format_option :=
    if audio_only r then "bestaudio/best"
    else "bestvideo[height<=" +:+ resolution r +:+ "]+bestaudio/best" in
  let opts0 : gmap string pyval :=
    {[ "format" := PStr format_option;
       "outtmpl" := PStr (os_path_join (output_path r) "%(title)s.%(ext)s");
       "progress_hooks" := PList [PHook] ]} in
  let opts1 : gmap string pyval :=
    if subtitles r && negb (audio_only r) then
      {[ "writesubtitles" := PBool true;
         "subtitleslangs" := PList [PStr "en"];
         "subtitlesformat" := PStr "srt";
         "skip_download" := PBool false ]} ∪ opts0
    else opts0 in
  if negb (String.eqb (filename r) "") then
    let safe_filename := sanitize_filename (filename r) in
    <["outtmpl" := PStr (os_path_join (output_path r) (safe_filename +:+ ".%(ext)s"))]> opts1
  else opts1.

(** The three [ydl_opts.pop(key, None)] of the retry. *)
Definition without_subtitles (opts : gmap string pyval) : gmap string pyval :=
  delete "subtitlesformat" (delete "subtitleslangs" (delete "writesubtitles" opts)).

(** The body of the [try]: the first attempt. *)
Definition first_attempt (r : download_request) (a : answers) : M unit unit :=
  ext (OsMakedirs (output_path r)) (os_answer (a_makedirs a));;
  logging_info ("Attempting to download video from URL: " +:+ url r);;
  let ydl := ydl_opts r in
  info ← ext (YdlExtractInfo ydl (url r) false) (a_extract_info a);
  video_title ←
    match info with
    | Some d => mret (default "Unknown Title" (d !! "title"))
    | None => raise (OtherException "AttributeError"
                       "'NoneType' object has no attribute 'get'")
    end;
  write_event_value "-MESSAGE-" (PStr ("Downloading: " +:+ video_title));;
  ext (YdlDownload ydl [url r]) (a_download a);;
  aborted ← abort_is_set (a_abort a);
  (if (aborted : bool) then
     write_event_value "-MESSAGE-" (PStr "Download aborted.");;
     return_ tt
   else mret tt);;
  write_event_value "-MESSAGE-"
    (PStr ("Download complete! Video saved to: " +:+ output_path r));;
  write_event_value "-PROGRESS-" (PInt 100).

(** The [if 'subtitle' in str(e)] branch of [except DownloadError]: the
    retry.  Nothing encloses it but the [finally]. *)
Definition retry_without_subtitles (r : download_request) (a : answers) : M unit unit :=
  write_event_value "-MESSAGE-"
    (PStr ("Subtitles not available for " +:+ url r
           +:+ ". Downloading video without subtitles."));;
  let ydl := without_subtitles (ydl_opts r) in
  ext (YdlDownload ydl [url r]) (a_retry_download a);;
  aborted ← abort_is_set (a_retry_abort a);
  if (aborted : bool) then
    write_event_value "-MESSAGE-" (PStr "Download aborted.");;
    return_ tt
  else mret tt.

(** [except DownloadError as e: ...  except Exception as e: ...] *)
Definition handler (r : download_request) (a : answers) (e : exn) : M unit unit :=
  match e with
  | DownloadError _ =>
      if str_contains "subtitle" (str_of_exn e) then retry_without_subtitles r a
      else
        let error_msg := "Download error: " +:+ str_of_exn e in
        logging_error error_msg;;
        write_event_value "-MESSAGE-" (PStr error_msg)
  | OtherException _ _ =>
      let error_msg := "An unexpected error occurred: " +:+ str_of_exn e in
      logging_error error_msg;;
      write_event_value "-MESSAGE-" (PStr error_msg)
  end.

Definition download_video (r : download_request) (a : answers) : M unit unit :=
  call_fn
    (try_finally
       (try_except (first_attempt r a) (handler r a))
       (write_event_value "-DOWNLOAD-COMPLETE-" (PBool true))).

(** [process_download_queue], as in [VideoDownload]. *)
Fixpoint process_download_queue (entries : list (option (download_request * answers)))
    : list effect * worker_status :=
  match entries with
  | [] => ([], Blocked)
  | None :: _ => ([], Stopped)
  | Some (item, a) :: rest =>
      match download_video item a with
      | (t, Raised e) => (t, Died e)
      | (t, _) =>
          let '(t', st) := process_download_queue rest in
          (t ++ TaskDone :: t', st)
      end
  end.

(** ** The event loop of [main] *)

Record form_values : Type := {
  v_url : string;
  v_output : string;
  v_resolution : string;
  v_audio : bool;
  v_filename : string;
  v_subtitles : bool
}.

Inductive event : Type :=
  | WINDOW_CLOSED
  | EXIT
  | ADD_QUEUE
  | CLEAR_QUEUE
  | START_DOWNLOADS
  | ABORT
  | PROGRESS (value : pyval)
  | MESSAGE (value : pyval)
  | DOWNLOAD_COMPLETE
  | OTHER (key : string).

Record ui_state : Type := {
  queue_list : list download_request;
  queue_listbox : list string;
  log_pane : list pyval;
  progress_bar : pyval;
  download_queue : list (option download_request);
  abort_event : bool;
  popups : list string;
  widget_updates : list (string * pyval)
}.

Definition initial_state : ui_state :=
  {| queue_list := []; queue_listbox := []; log_pane := []; progress_bar := PInt 0;
     download_queue := []; abort_event := false; popups := []; widget_updates := [] |}.

Inductive step_result : Type :=
  | Continue (st : ui_state)
  | Break (st : ui_state).

Definition set_queue_list (l : list download_request) (st : ui_state) : ui_state :=
  {| queue_list := l; queue_listbox := queue_listbox st; log_pane := log_pane st;
     progress_bar := progress_bar st; download_queue := download_queue st;
     abort_event := abort_event st; popups := popups st;
     widget_updates := widget_updates st |}.

Definition set_queue_listbox (l : list string) (st : ui_state) : ui_state :=
  {| queue_list := queue_list st; queue_listbox := l; log_pane := log_pane st;
     progress_bar := progress_bar st; download_queue := download_queue st;
     abort_event := abort_event st; popups := popups st;
     widget_updates := widget_updates st |}.

Definition log_print (v : pyval) (st : ui_state) : ui_state :=
  {| queue_list := queue_list st; queue_listbox := queue_listbox st;
     log_pane := log_pane st ++ [v];
     progress_bar := progress_bar st; download_queue := download_queue st;
     abort_event := abort_event st; popups := popups st;
     widget_updates := widget_updates st |}.

Definition set_progress_bar (v : pyval) (st : ui_state) : ui_state :=
  {| queue_list := queue_list st; queue_listbox := queue_listbox st; log_pane := log_pane st;
     progress_bar := v; download_queue := download_queue st;
     abort_event := abort_event st; popups := popups st;
     widget_updates := widget_updates st |}.

Definition queue_put (entries : list (option download_request)) (st : ui_state) : ui_state :=
  {| queue_list := queue_list st; queue_listbox := queue_listbox st; log_pane := log_pane st;
     progress_bar := progress_bar st; download_queue := download_queue st ++ entries;
     abort_event := abort_event st; popups := popups st;
     widget_updates := widget_updates st |}.

Definition set_abort (st : ui_state) : ui_state :=
  {| queue_list := queue_list st; queue_listbox := queue_listbox st; log_pane := log_pane st;
     progress_bar := progress_bar st; download_queue := download_queue st;
     abort_event := true; popups := popups st;
     widget_updates := widget_updates st |}.

Definition popup_error (text : string) (st : ui_state) : ui_state :=
  {| queue_list := queue_list st; queue_listbox := queue_listbox st; log_pane := log_pane st;
     progress_bar := progress_bar st; download_queue := download_queue st;
     abort_event := abort_event st; popups := popups st ++ [text];
     widget_updates := widget_updates st |}.

Definition widget_update (key : string) (v : pyval) (st : ui_state) : ui_state :=
  {| queue_list := queue_list st; queue_listbox := queue_listbox st; log_pane := log_pane st;
     progress_bar := progress_bar st; download_queue := download_queue st;
     abort_event := abort_event st; popups := popups st;
     widget_updates := widget_updates st ++ [(key, v)] |}.

Definition request_of_values (values : form_values) : download_request :=
  {| url := v_url values; output_path := v_output values;
     resolution := v_resolution values; audio_only := v_audio values;
     filename := v_filename values; subtitles := v_subtitles values |}.

Definition main_step (st : ui_state) (ev : event) (values : form_values) : step_result :=
  match ev with
  | WINDOW_CLOSED | EXIT => Break (queue_put [None] st)
  | ADD_QUEUE =>
      if negb (String.eqb (v_url values) "") then
        let st1 := set_queue_list (queue_list st ++ [request_of_values values]) st in
        let st2 := set_queue_listbox (map url (queue_list st1)) st1 in
        let st3 := widget_update "-URL-" (PStr "") st2 in
        Continue (log_print (PStr ("Added to queue: " +:+ v_url values)) st3)
      else Continue (popup_error "Please enter a video URL." st)
  | CLEAR_QUEUE =>
      let st1 := set_queue_list [] st in
      let st2 := set_queue_listbox [] st1 in
      Continue (log_print (PStr "Queue cleared.") st2)
  | START_DOWNLOADS =>
      match queue_list st with
      | _ :: _ =>
          let st1 := queue_put (map Some (queue_list st)) st in
          let st2 := log_print
                       (PStr ("Started downloading " +:+ pretty (List.length (queue_list st1))
                              +:+ " videos.")) st1 in
          let st3 := set_queue_list [] st2 in
          Continue (set_queue_listbox [] st3)
      | [] =>
          if negb (String.eqb (v_url values) "") then
            let st1 := queue_put [Some (request_of_values values)] st in
            Continue (log_print (PStr ("Started downloading: " +:+ v_url values)) st1)
          else
            Continue (popup_error "Please enter a video URL or add videos to the queue." st)
      end
  | ABORT =>
      Continue (log_print (PStr "Aborting downloads...") (set_abort st))
  | PROGRESS value => Continue (set_progress_bar value st)
  | MESSAGE value => Continue (log_print value st)
  | DOWNLOAD_COMPLETE => Continue (set_progress_bar (PInt 0) st)
  | OTHER _ => Continue st
  end.

Fixpoint main_loop (st : ui_state) (inputs : list (event * form_values)) : step_result :=
  match inputs with
  | [] => Continue st
  | (ev, values) :: rest =>
      match main_step st ev values with
      | Continue st' => main_loop st' rest
      | stop => stop
      end
  end.

End Youtube.

(** * Notions the properties are stated with *)

(** ** Byte counters of a progress dictionary *)

(** A total byte count is known when the field holds a number other than
    zero; it is missing when the field is absent, [None] or zero. *)
Inductive counter : Type :=
  | NoCount
  | Count (q : Q)
  | NotACount.

Definition nonzero_count (field : option pyval) : counter :=
  match field with
  | None => NoCount
  | Some PNone => NoCount
  | Some (PInt z) => if (z =? 0)%Z then NoCount else Count (inject_Z z)
  | Some (PFloat q) => if Qeq_bool q 0 then NoCount else Count q
  | Some _ => NotACount
  end.

(** [total_bytes], or else [total_bytes_estimate]. *)
Definition total_byte_count (d : gmap string pyval) : counter :=
  match nonzero_count (d !! "total_bytes") with
  | NoCount => nonzero_count (d !! "total_bytes_estimate")
  | c => c
  end.

(** [downloaded_bytes], 0 when absent. *)
Definition downloaded_count (d : gmap string pyval) : option Q :=
  match d !! "downloaded_bytes" with
  | None => Some (inject_Z 0)
  | Some (PInt z) => Some (inject_Z z)
  | Some (PFloat q) => Some q
  | Some _ => None
  end.

(** ** Reading a trace *)



(** An external call that raised. *)
Definition is_failure (e : effect) : bool :=
  match e with
  | ExtCall _ (Some _) => true
  | _ => false
  end.

(** The post-processing of a download: the transcribe call and the write of
    the transcript file. *)
Definition is_post_processing (e : effect) : bool :=
  match e with
  | ExtCall (WhisperTranscribe _) _ => true
  | ExtCall (WriteTextFile _ _) _ => true
  | _ => false
  end.

(** A call into yt_dlp that downloads. *)
Definition is_download_call (e : effect) : bool :=
  match e with
  | ExtCall (YdlExtractInfo _ _ true) _ => true
  | ExtCall (YdlDownload _ _) _ => true
  | _ => false
  end.





(** The exception an answer stands for, if any. *)
Definition raised_of {A} (r : result A) : option exn :=
  match r with
  | Ok _ => None
  | Err e => Some e
  end.

(** The option keys that the retry of [youtube.py] pops. *)
Definition subtitle_options : list string :=
  ["writesubtitles"; "subtitleslangs"; "subtitlesformat"].


(** ** Reading a run of the worker *)

(** What one queue entry contributes to the worker's trace when its task
    comes back: the task's effects, then [download_queue.task_done()]. *)
Definition vd_task_trace (t : VideoDownload.queue_item * VideoDownload.answers) : list effect :=
  effects (VideoDownload.process_item t.1 t.2) ++ [TaskDone].

Definition yt_task_trace (t : Youtube.download_request * Youtube.answers) : list effect :=
  effects (Youtube.download_video t.1 t.2) ++ [TaskDone].

(** In [youtube.py]: the first attempt failed with a [DownloadError] that
    mentions subtitles, and the download of the retry raised as well. *)
Definition retry_raises (r : Youtube.download_request) (a : Youtube.answers) : bool :=
  match ending (Youtube.first_attempt r a) with
  | Raised (DownloadError msg) =>
      str_contains "subtitle" msg &&
      match Youtube.a_retry_download a with
      | Err _ => true
      | Ok _ => false
      end
  | _ => false
  end.

(** ** The two views of the pending queue *)

(** The list box shows the pending list: it holds the labels of
    [queue_list], in order. *)
Definition vd_in_sync (st : VideoDownload.ui_state) : Prop :=
  VideoDownload.queue_labels (VideoDownload.queue_list st)
  = Ok (VideoDownload.queue_listbox st).

Definition yt_in_sync (st : Youtube.ui_state) : Prop :=
  Youtube.queue_listbox st = map Youtube.url (Youtube.queue_list st).

(** ** Sample inputs *)

Definition vd_song : VideoDownload.download_request :=
  {| VideoDownload.url := "https://example.org/watch?v=1";
     VideoDownload.output_path := "out";
     VideoDownload.resolution := "720";
     VideoDownload.audio_only := true;
     VideoDownload.filename := "";
     VideoDownload.transcribe := true;
     VideoDownload.model_choice := "turbo" |}.

Definition vd_film : VideoDownload.download_request :=
  {| VideoDownload.url := "https://example.org/watch?v=2";
     VideoDownload.output_path := "out";
     VideoDownload.resolution := "1080";
     VideoDownload.audio_only := false;
     VideoDownload.filename := "my:film";
     VideoDownload.transcribe := false;
     VideoDownload.model_choice := "turbo" |}.

(** Every call succeeds; [abort] is what [abort_event.is_set()] reads. *)
Definition vd_answers (abort : bool) (transcribed : result string) : VideoDownload.answers :=
  {| VideoDownload.a_makedirs := None;
     VideoDownload.a_load_model := Ok tt;
     VideoDownload.a_extract_info := Ok (Some {[ "title" := "Song" ]});
     VideoDownload.a_prepare_filename := Ok "out/Song.webm";
     VideoDownload.a_abort := abort;
     VideoDownload.a_transcribe := transcribed;
     VideoDownload.a_write_transcript := None;
     VideoDownload.a_popen := Ok (0%Z, "");
     VideoDownload.a_exists := true |}.

Definition yt_clip (link : string) : Youtube.download_request :=
  {| Youtube.url := link;
     Youtube.output_path := "out";
     Youtube.resolution := "720";
     Youtube.audio_only := false;
     Youtube.filename := "";
     Youtube.subtitles := true |}.

Definition yt_answers (downloaded retried : result unit) (abort : bool) : Youtube.answers :=
  {| Youtube.a_makedirs := None;
     Youtube.a_extract_info := Ok (Some {[ "title" := "Clip" ]});
     Youtube.a_download := downloaded;
     Youtube.a_abort := abort;
     Youtube.a_retry_download := retried;
     Youtube.a_retry_abort := abort |}.

Definition vd_values (link : string) : VideoDownload.form_values :=
  {| VideoDownload.v_url := link; VideoDownload.v_output := "out";
     VideoDownload.v_resolution := "720"; VideoDownload.v_audio := false;
     VideoDownload.v_filename := ""; VideoDownload.v_transcribe := false;
     VideoDownload.v_model := "turbo" |}.

Definition yt_values (link : string) : Youtube.form_values :=
  {| Youtube.v_url := link; Youtube.v_output := "out";
     Youtube.v_resolution := "720"; Youtube.v_audio := false;
     Youtube.v_filename := ""; Youtube.v_subtitles := true |}.

(** Two files are queued for transcription, then Abort is pressed. *)
Definition vd_session : list (VideoDownload.event * VideoDownload.form_values) :=
  [ (VideoDownload.ADD_LOCAL (Some "talk.mp3;lecture.wav"), vd_values "");
    (VideoDownload.ABORT, vd_values "") ].

(** A URL is queued, then the queue is cleared. *)
Definition yt_session : list (Youtube.event * Youtube.form_values) :=
  [ (Youtube.ADD_QUEUE, yt_values "https://example.org/watch?v=3");
    (Youtube.CLEAR_QUEUE, yt_values "") ].

(** ** More ways to read a trace *)

(** The event of the [finally] clause of [download_video]. *)
Definition is_download_complete (e : effect) : bool :=
  match e with
  | WriteEventValue key (PBool true) => String.eqb key "-DOWNLOAD-COMPLETE-"
  | _ => false
  end.



(** A call into whisper. *)
Definition is_whisper_call (e : effect) : bool :=
  match e with
  | ExtCall (WhisperLoadModel _) _ => true
  | ExtCall (WhisperTranscribe _) _ => true
  | _ => false
  end.

(** The start of an ffmpeg process. *)
Definition is_ffmpeg_call (e : effect) : bool :=
  match e with
  | ExtCall (SubprocessPopen _) _ => true
  | _ => false
  end.

(** A transcript file that was written. *)
Definition is_transcript_written (e : effect) : bool :=
  match e with
  | ExtCall (WriteTextFile _ _) None => true
  | _ => false
  end.

Definition is_task_done (e : effect) : bool :=
  match e with
  | TaskDone => true
  | _ => false
  end.

(** The value of the last '-PROGRESS-' event of a trace. *)
Fixpoint last_progress (tr : list effect) : option pyval :=
  match tr with
  | [] => None
  | e :: post =>
      match last_progress post with
      | Some v => Some v
      | None =>
          match e with
          | WriteEventValue key v => if String.eqb key "-PROGRESS-" then Some v else None
          | _ => None
          end
      end
  end.

(** The conversion to MP3 succeeded: ffmpeg started, ended with return code
    0 and left the output file. *)
Definition conversion_ok (a : VideoDownload.answers) : bool :=
  match VideoDownload.a_popen a with
  | Ok (returncode, _) => (returncode =? 0)%Z && VideoDownload.a_exists a
  | Err _ => false
  end.

(** ** The worker's events as the UI loop receives them *)

(** [window.write_event_value(key, value)] makes a later [window.read()]
    return the event [key] with [values[key] = value]. *)
Definition vd_event_of (key : string) (value : pyval) : VideoDownload.event :=
  if String.eqb key "-PROGRESS-" then VideoDownload.PROGRESS value
  else if String.eqb key "-MESSAGE-" then VideoDownload.MESSAGE value
  else if String.eqb key "-DOWNLOAD-COMPLETE-" then VideoDownload.DOWNLOAD_COMPLETE
  else VideoDownload.OTHER key.

Fixpoint vd_thread_events (values : VideoDownload.form_values) (tr : list effect)
    : list (VideoDownload.event * VideoDownload.form_values) :=
  match tr with
  | [] => []
  | WriteEventValue key value :: post =>
      (vd_event_of key value, values) :: vd_thread_events values post
  | _ :: post => vd_thread_events values post
  end.

Definition yt_event_of (key : string) (value : pyval) : Youtube.event :=
  if String.eqb key "-PROGRESS-" then Youtube.PROGRESS value
  else if String.eqb key "-MESSAGE-" then Youtube.MESSAGE value
  else if String.eqb key "-DOWNLOAD-COMPLETE-" then Youtube.DOWNLOAD_COMPLETE
  else Youtube.OTHER key.

Fixpoint yt_thread_events (values : Youtube.form_values) (tr : list effect)
    : list (Youtube.event * Youtube.form_values) :=
  match tr with
  | [] => []
  | WriteEventValue key value :: post =>
      (yt_event_of key value, values) :: yt_thread_events values post
  | _ :: post => yt_thread_events values post
  end.

(** The values of the '-MESSAGE-' events of a trace, in order. *)
Fixpoint trace_messages (tr : list effect) : list pyval :=
  match tr with
  | [] => []
  | WriteEventValue key value :: post =>
      if String.eqb key "-MESSAGE-" then value :: trace_messages post
      else trace_messages post
  | _ :: post => trace_messages post
  end.

(** The entries of the download queue as the worker takes them, each with
    the answers the outside world gives while it is processed: the [n]-th
    entry taken gets [script n]. *)
Fixpoint attach_answers {I A : Type} (script : nat -> A) (n : nat)
    (entries : list (option I)) : list (option (I * A)) :=
  match entries with
  | [] => []
  | None :: rest => None :: attach_answers script (S n) rest
  | Some item :: rest => Some (item, script n) :: attach_answers script (S n) rest
  end.

(** Pressing 'Add to Queue' once for each filled-in form of a list. *)
Definition yt_add_all (forms : list Youtube.form_values)
    : list (Youtube.event * Youtube.form_values) :=
  map (fun values => (Youtube.ADD_QUEUE, values)) forms.

(** The local-file items that one answer of the file dialog stands for. *)
Definition local_items (files model : string) : list VideoDownload.queue_item :=
  map (fun file_path => VideoDownload.LocalItem file_path model)
      (List.filter (fun file_path => negb (String.eqb file_path ""))
                   (str_split ";"%char files)).

(** * Properties *)

(** ** Proof automation *)

Arguments os_path_splitext : simpl never.
Arguments os_path_join : simpl never.
Arguments os_path_basename : simpl never.
Arguments py_strip : simpl never.
Arguments str_lower : simpl never.
Arguments str_endswith : simpl never.
Arguments str_contains : simpl never.
Arguments sanitize_filename : simpl never.
Arguments VideoDownload.ydl_opts : simpl never.
Arguments Youtube.ydl_opts : simpl never.
Arguments Youtube.without_subtitles : simpl never.
Arguments String.append : simpl never.

(** Symbolic execution of a task: decide, one after the other, the scripted
    answers and the string tests the control flow depends on. *)
Ltac decide_answer :=
  match goal with
  | |- context [ext _ (os_answer ?o)] => is_var o; destruct o as [[? ?]|]
  | |- context [ext _ ?r] => is_var r; destruct r as [?|?]
  | |- context [abort_is_set ?b] => is_var b; destruct b
  | |- context [if negb ?b then _ else _] => destruct b eqn:?
  | |- context [if ?b then _ else _] => destruct b eqn:?
  | |- context [match ?x with _ => _ end] => is_var x; destruct x
  end.

Ltac run_task := repeat (simpl; try reflexivity; decide_answer); simpl; try reflexivity.

Ltac run_task_in_context :=
  repeat (simpl in *; try reflexivity; try discriminate; decide_answer);
  simpl in *; try reflexivity; try discriminate.


(** ** The library helpers on sample strings *)

Example os_path_examples :
  os_path_join "out" "a.mp4" = "out/a.mp4"
  /\ os_path_join "out/" "a.mp4" = "out/a.mp4"
  /\ os_path_join "" "a.mp4" = "a.mp4"
  /\ os_path_join "out" "/tmp/a.mp4" = "/tmp/a.mp4"
  /\ os_path_splitext "out/Song.webm" = ("out/Song", ".webm")
  /\ os_path_splitext "archive.tar.gz" = ("archive.tar", ".gz")
  /\ os_path_splitext "out.d/Song" = ("out.d/Song", "")
  /\ os_path_splitext "out/.hidden" = ("out/.hidden", "")
  /\ os_path_basename "out/talk.mp3" = "talk.mp3"
  /\ os_path_basename "talk.mp3" = "talk.mp3".
Proof. repeat split; reflexivity. Qed.

Example str_examples :
  str_split ";"%char "a.mp3;b.wav" = ["a.mp3"; "b.wav"]
  /\ str_split ";"%char "a.mp3;;b.wav" = ["a.mp3"; ""; "b.wav"]
  /\ str_split ";"%char "" = [""]
  /\ py_strip "  la la " = "la la"
  /\ str_endswith (str_lower "Talk.MP3") ".mp3" = true
  /\ str_endswith (str_lower "talk.wav") ".mp3" = false
  /\ str_contains "subtitle" "ERROR: no subtitles found" = true
  /\ str_contains "subtitle" "ERROR: Subtitles missing" = false
  /\ str_contains "subtitle" "ERROR: video unavailable" = false.
Proof. repeat split; reflexivity. Qed.

(** ** Filename sanitization *)

Lemma parse_class_body : parse_class class_body = forbidden_chars.
Proof. reflexivity. Qed.

Lemma re_sub_class_empty (cls : list ascii) (s : string) :
  list_ascii_of_string (re_sub_class cls "" s)
  = List.filter (fun c => negb (in_class cls c)) (list_ascii_of_string s).
Proof.
  induction s as [|c s IH]; simpl; [reflexivity|].
  destruct (in_class cls c); simpl; [exact IH | now rewrite IH].
Qed.

Lemma filter_twice {A} (p : A -> bool) (l : list A) :
  List.filter p (List.filter p l) = List.filter p l.
Proof.
  induction l as [|x l IH]; simpl; [reflexivity|].
  destruct (p x) eqn:Hp; simpl; [rewrite Hp, IH|]; auto.
Qed.

Lemma list_ascii_of_string_inj (s t : string) :
  list_ascii_of_string s = list_ascii_of_string t -> s = t.
Proof.
  intros H. rewrite <- (string_of_list_ascii_of_string s),
    <- (string_of_list_ascii_of_string t). now rewrite H.
Qed.

(** C5.  For every input string, [sanitize_filename] returns the input with
    every occurrence of the nine forbidden characters removed, the other
    characters unchanged and in their original order: the result is the
    input filtered by "is not forbidden", and no forbidden character is left
    in it. *)
Theorem sanitize_filename_strips_forbidden (s : string) :
  list_ascii_of_string (sanitize_filename s) = strip_forbidden (list_ascii_of_string s)
  /\ (forall c, In c (list_ascii_of_string (sanitize_filename s)) -> is_forbidden c = false).
Proof.
  assert (H : list_ascii_of_string (sanitize_filename s)
              = strip_forbidden (list_ascii_of_string s)).
  { unfold sanitize_filename. rewrite parse_class_body. apply re_sub_class_empty. }
  split; [exact H|].
  intros c Hc. rewrite H in Hc. unfold strip_forbidden in Hc.
  apply filter_In in Hc. destruct Hc as [_ Hc].
  now destruct (is_forbidden c).
Qed.

(** C10.  [sanitize_filename] is idempotent. *)
Theorem sanitize_filename_idempotent (s : string) :
  sanitize_filename (sanitize_filename s) = sanitize_filename s.
Proof.
  apply list_ascii_of_string_inj. unfold sanitize_filename.
  rewrite !re_sub_class_empty. apply filter_twice.
Qed.

Example sanitize_filename_example :
  sanitize_filename ("a/b\c: *d?" +:+ String dquote "<e>|.mp4") = "abc de.mp4".
Proof. reflexivity. Qed.

(** ** The progress hook *)

(** C6.  For every progress dictionary whose status is 'finished', the hook
    emits exactly one event, '-PROGRESS-' with the integer 100. *)
Theorem progress_hook_finished (d : gmap string pyval) :
  d !! "status" = Some (PStr "finished") ->
  progress_hook d = ([WriteEventValue "-PROGRESS-" (PInt 100)], Normal tt).
Proof.
  intros H. unfold progress_hook, dict_item. rewrite H. reflexivity.
Qed.

Lemma progress_hook_finished_witness :
  progress_hook {[ "status" := PStr "finished"; "filename" := PStr "a.mp4" ]}
  = ([WriteEventValue "-PROGRESS-" (PInt 100)], Normal tt).
Proof. apply progress_hook_finished. reflexivity. Defined.

Lemma truthy_total_not_zero (v : pyval) (y : Q) :
  truthy v = true -> as_number v = Some y -> Qeq_bool y 0 = false.
Proof.
  destruct v; simpl; try discriminate.
  - intros -> [= <-]. reflexivity.
  - intros H [= <-]. unfold Qeq_bool. simpl.
    destruct z; try discriminate; reflexivity.
  - intros H [= <-]. now destruct (Qeq_bool q 0).
Qed.


Lemma total_byte_count_known (d : gmap string pyval) (total : Q) :
  total_byte_count d = Count total ->
  let v := py_or (dict_get d "total_bytes") (dict_get d "total_bytes_estimate") in
  truthy v = true /\ as_number v = Some total.
Proof.
  unfold total_byte_count, py_or, dict_get, nonzero_count.
  destruct (d !! "total_bytes") as [[| | z | q | | | |]|]; simpl; try discriminate;
    try (destruct (z =? 0)%Z eqn:Hz; simpl; [|intros [= <-]; rewrite Hz; simpl; auto]);
    try (destruct (Qeq_bool q 0) eqn:Hq; simpl; [|intros [= <-]; rewrite Hq; simpl; auto]);
    destruct (d !! "total_bytes_estimate") as [[| | z' | q' | | | |]|]; simpl;
    try discriminate;
    try (destruct (z' =? 0)%Z eqn:Hz'; simpl; [discriminate|];
         intros [= <-]; rewrite ?Hz'; simpl; auto);
    try (destruct (Qeq_bool q' 0) eqn:Hq'; simpl; [discriminate|];
         intros [= <-]; rewrite ?Hq'; simpl; auto).
Qed.


Lemma downloaded_count_number (d : gmap string pyval) (downloaded : Q) :
  downloaded_count d = Some downloaded ->
  as_number (dict_get_default d "downloaded_bytes" (PInt 0)) = Some downloaded.
Proof.
  unfold downloaded_count, dict_get_default.
  destruct (d !! "downloaded_bytes") as [[]|]; simpl; congruence.
Qed.



Example progress_hook_quarter :
  exists q,
    progress_hook {[ "status" := PStr "downloading"; "total_bytes" := PInt 200;
                     "downloaded_bytes" := PInt 50 ]}
    = ([WriteEventValue "-PROGRESS-" (PFloat q)], Normal tt) /\ (q == 25)%Q.
Proof. eexists. split; reflexivity. Qed.

Example progress_hook_zero_total :
  progress_hook {[ "status" := PStr "downloading"; "total_bytes" := PInt 0;
                   "downloaded_bytes" := PInt 50 ]}
  = ([], Normal tt).
Proof. reflexivity. Qed.

(** ** Configuration *)

(** C9.  [load_config] returns the persisted settings when the config file
    exists and holds them; when the file is absent it returns the defaults
    and writes them to the config file, so that the next load finds them.
    The defaults are: output path "downloads", resolution "720", model
    "turbo", temp directory unset ([None]), keep-temp-files false, and
    nothing else. *)
Theorem load_config_persisted_or_default (fs : gmap string VideoDownload.file) :
  (forall v, fs !! VideoDownload.CONFIG_FILE = Some (VideoDownload.JsonFile v) ->
     VideoDownload.load_config fs = (Ok v, fs))
  /\ (fs !! VideoDownload.CONFIG_FILE = None ->
      let fs' := <[VideoDownload.CONFIG_FILE :=
                     VideoDownload.JsonFile VideoDownload.DEFAULT_CONFIG]> fs in
      VideoDownload.load_config fs = (Ok VideoDownload.DEFAULT_CONFIG, fs')
      /\ VideoDownload.load_config fs' = (Ok VideoDownload.DEFAULT_CONFIG, fs'))
  /\ (exists d, VideoDownload.DEFAULT_CONFIG = PDict d
      /\ d !! "default_output_path" = Some (PStr "downloads")
      /\ d !! "default_resolution" = Some (PStr "720")
      /\ d !! "default_model" = Some (PStr "turbo")
      /\ d !! "temp_directory" = Some PNone
      /\ d !! "keep_temp_files" = Some (PBool false)
      /\ size d = 5%nat).
Proof.
  split; [|split].
  - intros v H. unfold VideoDownload.load_config, VideoDownload.open_read.
    now rewrite H.
  - intros H fs'. split.
    + unfold VideoDownload.load_config, VideoDownload.open_read. now rewrite H.
    + unfold VideoDownload.load_config, VideoDownload.open_read, fs'.
      now rewrite lookup_insert_eq.
  - eexists. split; [reflexivity|]. repeat split; reflexivity.
Qed.

Lemma load_config_persisted_or_default_witness :
  (let fs : gmap string VideoDownload.file :=
     {[ "config.json" := VideoDownload.JsonFile (PDict {[ "default_model" := PStr "tiny" ]}) ]} in
   VideoDownload.load_config fs = (Ok (PDict {[ "default_model" := PStr "tiny" ]}), fs))
  /\ VideoDownload.load_config ∅
     = (Ok VideoDownload.DEFAULT_CONFIG,
        {[ "config.json" := VideoDownload.JsonFile VideoDownload.DEFAULT_CONFIG ]}).
Proof.
  split.
  - intros fs.
    exact (proj1 (load_config_persisted_or_default fs) _ eq_refl).
  - exact (proj1 (proj1 (proj2 (load_config_persisted_or_default ∅)) eq_refl)).
Defined.

(** A config file that [json.load] rejects is not covered by the
    [except FileNotFoundError] clause: the error leaves [load_config]. *)
Example load_config_malformed :
  VideoDownload.load_config {[ "config.json" := VideoDownload.NotJson "{oops" ]}
  = (Err (OtherException "JSONDecodeError" "{oops"),
     {[ "config.json" := VideoDownload.NotJson "{oops" ]}).
Proof. reflexivity. Qed.

(** ** Clearing the queue *)

Lemma vd_add_local_files_in_sync (paths : list string) (model : string)
    (st st' : VideoDownload.ui_state) :
  vd_in_sync st ->
  VideoDownload.add_local_files paths model st = VideoDownload.Continue st' ->
  vd_in_sync st'.
Proof.
  revert st. induction paths as [|file_path paths IH]; intros st Hsync Hstep.
  - injection Hstep as <-. exact Hsync.
  - simpl in Hstep. destruct (negb (file_path =? "")%string); [|now apply (IH st)].
    destruct (VideoDownload.queue_labels _) as [labels|e] eqn:Hlabels; [|discriminate].
    refine (IH _ _ Hstep). exact Hlabels.
Qed.

Lemma vd_add_local_files_never_breaks (paths : list string) (model : string)
    (st st' : VideoDownload.ui_state) :
  VideoDownload.add_local_files paths model st <> VideoDownload.Break st'.
Proof.
  revert st. induction paths as [|file_path paths IH]; intros st; simpl; [discriminate|].
  destruct (negb (file_path =? "")%string); [|apply IH].
  destruct (VideoDownload.queue_labels _); [apply IH|discriminate].
Qed.

(** Every turn of the loop of [video_download.py] that does not crash keeps
    the list box in step with the pending list. *)
Lemma vd_main_step_in_sync (st st' : VideoDownload.ui_state) (ev : VideoDownload.event)
    (values : VideoDownload.form_values) :
  vd_in_sync st ->
  VideoDownload.main_step st ev values = VideoDownload.Continue st'
  \/ VideoDownload.main_step st ev values = VideoDownload.Break st' ->
  vd_in_sync st'.
Proof.
  intros Hsync Hstep. destruct ev; simpl in Hstep.
  1-2: destruct Hstep as [Hstep|Hstep]; [discriminate|injection Hstep as <-; exact Hsync].
  - destruct (negb (VideoDownload.v_url values =? "")%string).
    + destruct (VideoDownload.queue_labels _) as [labels|e] eqn:Hlabels;
        destruct Hstep as [Hstep|Hstep]; try discriminate.
      injection Hstep as <-. exact Hlabels.
    + destruct Hstep as [Hstep|Hstep]; [|discriminate].
      injection Hstep as <-. exact Hsync.
  - destruct Hstep as [Hstep|Hstep].
    + destruct files as [fs|]; [|injection Hstep as <-; exact Hsync].
      destruct (negb (fs =? "")%string); [|injection Hstep as <-; exact Hsync].
      now apply (vd_add_local_files_in_sync _ _ _ _ Hsync Hstep).
    + destruct files as [fs|]; [|discriminate].
      destruct (negb (fs =? "")%string); [|discriminate].
      now apply vd_add_local_files_never_breaks in Hstep.
  - destruct Hstep as [Hstep|Hstep]; [|discriminate]. injection Hstep as <-. reflexivity.
  - destruct Hstep as [Hstep|Hstep].
    + destruct (VideoDownload.queue_list st) eqn:Hq.
      * destruct (negb (VideoDownload.v_url values =? "")%string);
          injection Hstep as <-; unfold vd_in_sync; simpl; rewrite Hq;
          unfold vd_in_sync in Hsync; now rewrite Hq in Hsync.
      * injection Hstep as <-. reflexivity.
    + destruct (VideoDownload.queue_list st);
        [destruct (negb (VideoDownload.v_url values =? "")%string)|]; discriminate.
  - destruct Hstep as [Hstep|Hstep]; [|discriminate]. injection Hstep as <-. exact Hsync.
  - destruct Hstep as [Hstep|Hstep]; [|discriminate]. injection Hstep as <-. exact Hsync.
  - destruct Hstep as [Hstep|Hstep]; [|discriminate]. injection Hstep as <-. exact Hsync.
  - destruct Hstep as [Hstep|Hstep]; [|discriminate]. injection Hstep as <-. exact Hsync.
  - destruct (negb (VideoDownload.v_audio values));
      destruct Hstep as [Hstep|Hstep]; try discriminate;
      injection Hstep as <-; exact Hsync.
  - destruct Hstep as [Hstep|Hstep]; [|discriminate]. injection Hstep as <-. exact Hsync.
Qed.

Lemma yt_main_step_in_sync (st st' : Youtube.ui_state) (ev : Youtube.event)
    (values : Youtube.form_values) :
  yt_in_sync st ->
  Youtube.main_step st ev values = Youtube.Continue st'
  \/ Youtube.main_step st ev values = Youtube.Break st' ->
  yt_in_sync st'.
Proof.
  intros Hsync Hstep. unfold yt_in_sync in *.
  destruct ev; simpl in Hstep;
    try (destruct (negb (Youtube.v_url values =? "")%string));
    try (destruct (Youtube.queue_list st) eqn:Hq;
         [try destruct (negb (Youtube.v_url values =? "")%string)|]);
    destruct Hstep as [Hstep|Hstep]; try discriminate;
    injection Hstep as <-; simpl; rewrite ?Hq; try rewrite Hq in Hsync;
    auto.
Qed.

(** The invariant along the whole loop, from the empty window. *)
Lemma vd_main_loop_in_sync (inputs : list (VideoDownload.event * VideoDownload.form_values))
    (st st' : VideoDownload.ui_state) :
  vd_in_sync st ->
  VideoDownload.main_loop st inputs = VideoDownload.Continue st'
  \/ VideoDownload.main_loop st inputs = VideoDownload.Break st' ->
  vd_in_sync st'.
Proof.
  revert st. induction inputs as [|[ev values] inputs IH]; intros st Hsync Hloop.
  - simpl in Hloop. destruct Hloop as [H|H]; [|discriminate]. injection H as <-. exact Hsync.
  - simpl in Hloop.
    destruct (VideoDownload.main_step st ev values) as [st1|st1|st1 e] eqn:Hstep.
    + apply (IH st1); [|exact Hloop].
      apply (vd_main_step_in_sync st st1 ev values Hsync). now left.
    + destruct Hloop as [H|H]; [discriminate|]. injection H as <-.
      apply (vd_main_step_in_sync st st1 ev values Hsync). now right.
    + destruct Hloop as [H|H]; discriminate.
Qed.

Lemma yt_main_loop_in_sync (inputs : list (Youtube.event * Youtube.form_values))
    (st st' : Youtube.ui_state) :
  yt_in_sync st ->
  Youtube.main_loop st inputs = Youtube.Continue st'
  \/ Youtube.main_loop st inputs = Youtube.Break st' ->
  yt_in_sync st'.
Proof.
  revert st. induction inputs as [|[ev values] inputs IH]; intros st Hsync Hloop.
  - simpl in Hloop. destruct Hloop as [H|H]; [|discriminate]. injection H as <-. exact Hsync.
  - simpl in Hloop.
    destruct (Youtube.main_step st ev values) as [st1|st1] eqn:Hstep.
    + apply (IH st1); [|exact Hloop].
      apply (yt_main_step_in_sync st st1 ev values Hsync). now left.
    + destruct Hloop as [H|H]; [discriminate|]. injection H as <-.
      apply (yt_main_step_in_sync st st1 ev values Hsync). now right.
Qed.

Lemma vd_in_sync_empty (st : VideoDownload.ui_state) :
  vd_in_sync st ->
  (VideoDownload.queue_list st = [] <-> VideoDownload.queue_listbox st = []).
Proof.
  unfold vd_in_sync. destruct (VideoDownload.queue_list st) as [|item l]; simpl.
  - intros [= <-]. tauto.
  - destruct (VideoDownload.queue_label item); [|discriminate].
    destruct (VideoDownload.queue_labels l); [|discriminate].
    intros [= <-]. split; discriminate.
Qed.

Lemma yt_in_sync_empty (st : Youtube.ui_state) :
  yt_in_sync st ->
  (Youtube.queue_list st = [] <-> Youtube.queue_listbox st = []).
Proof.
  unfold yt_in_sync. intros ->.
  destruct (Youtube.queue_list st); simpl; split; auto; discriminate.
Qed.

(** C8.  In both scripts and from every state of the UI loop, the handler of
    the clear-queue event continues the loop in a state whose internal
    pending list and whose visible list box are both empty; the same step
    empties the two, prints one line to the log and changes nothing else.
    Neither is ever cleared without the other: in every state that the loop
    reaches from the empty window, the pending list is empty exactly when
    the list box is. *)
Theorem clear_queue_empties_list_and_listbox :
  (forall st values,
     exists st',
       VideoDownload.main_step st VideoDownload.CLEAR_QUEUE values = VideoDownload.Continue st'
       /\ VideoDownload.queue_list st' = []
       /\ VideoDownload.queue_listbox st' = []
       /\ VideoDownload.log_pane st' = VideoDownload.log_pane st ++ [PStr "Queue cleared."]
       /\ VideoDownload.download_queue st' = VideoDownload.download_queue st
       /\ VideoDownload.abort_event st' = VideoDownload.abort_event st
       /\ VideoDownload.progress_bar st' = VideoDownload.progress_bar st)
  /\ (forall st values,
     exists st',
       Youtube.main_step st Youtube.CLEAR_QUEUE values = Youtube.Continue st'
       /\ Youtube.queue_list st' = []
       /\ Youtube.queue_listbox st' = []
       /\ Youtube.log_pane st' = Youtube.log_pane st ++ [PStr "Queue cleared."]
       /\ Youtube.download_queue st' = Youtube.download_queue st
       /\ Youtube.abort_event st' = Youtube.abort_event st
       /\ Youtube.progress_bar st' = Youtube.progress_bar st)
  /\ (forall inputs st',
        VideoDownload.main_loop VideoDownload.initial_state inputs = VideoDownload.Continue st' ->
        (VideoDownload.queue_list st' = [] <-> VideoDownload.queue_listbox st' = []))
  /\ (forall inputs st',
        Youtube.main_loop Youtube.initial_state inputs = Youtube.Continue st' ->
        (Youtube.queue_list st' = [] <-> Youtube.queue_listbox st' = [])).
Proof.
  split; [|split; [|split]].
  - intros st values. eexists. split; [reflexivity|]. simpl. repeat split.
  - intros st values. eexists. split; [reflexivity|]. simpl. repeat split.
  - intros inputs st' Hloop. apply vd_in_sync_empty.
    apply (vd_main_loop_in_sync inputs VideoDownload.initial_state); [reflexivity|now left].
  - intros inputs st' Hloop. apply yt_in_sync_empty.
    apply (yt_main_loop_in_sync inputs Youtube.initial_state); [reflexivity|now left].
Qed.

Lemma clear_queue_empties_list_and_listbox_witness :
  (exists st',
     VideoDownload.main_loop VideoDownload.initial_state vd_session
     = VideoDownload.Continue st'
     /\ VideoDownload.queue_listbox st' = ["Transcribe: talk.mp3"; "Transcribe: lecture.wav"]
     /\ (VideoDownload.queue_list st' = [] <-> VideoDownload.queue_listbox st' = []))
  /\ (exists st',
        Youtube.main_loop Youtube.initial_state yt_session = Youtube.Continue st'
        /\ (Youtube.queue_list st' = [] <-> Youtube.queue_listbox st' = [])).
Proof.
  split.
  - eexists. split; [reflexivity|]. split; [reflexivity|].
    exact (proj1 (proj2 (proj2 clear_queue_empties_list_and_listbox))
             vd_session _ eq_refl).
  - eexists. split; [reflexivity|].
    exact (proj2 (proj2 (proj2 clear_queue_empties_list_and_listbox))
             yt_session _ eq_refl).
Defined.

(** In [video_download.py] the list comprehension that fills the list box
    looks up ['local_file'] in every item, so adding a URL to the pending
    list raises [KeyError] and ends the loop. *)
Example vd_add_queue_crashes :
  exists st,
    VideoDownload.main_step VideoDownload.initial_state VideoDownload.ADD_QUEUE
      (vd_values "https://example.org/watch?v=1")
    = VideoDownload.Crash st (OtherException "KeyError" "'local_file'").
Proof. eexists. reflexivity. Qed.

(** ** Tasks *)

Lemma vd_download_video_never_raises (r : VideoDownload.download_request)
    (a : VideoDownload.answers) :
  ending (VideoDownload.download_video r a) = Normal tt.
Proof.
  unfold VideoDownload.download_video.
  destruct (VideoDownload.download_body r a) as [t [[]|[]|e]]; reflexivity.
Qed.

Lemma vd_local_never_raises (file_path model : string) (a : VideoDownload.answers) :
  ending (VideoDownload.process_local_transcription_file file_path model a) = Normal tt.
Proof.
  unfold VideoDownload.process_local_transcription_file, VideoDownload.convert_to_mp3.
  destruct a as [mk lm ei pf ab tr wt po ex]. run_task.
Qed.





Lemma yt_download_video_never_raises (r : Youtube.download_request) (a : Youtube.answers) :
  retry_raises r a = false ->
  ending (Youtube.download_video r a) = Normal tt.
Proof.
  unfold retry_raises, Youtube.download_video, Youtube.handler,
    Youtube.retry_without_subtitles.
  destruct (Youtube.first_attempt r a) as [t [[]|[]|[msg|cls msg]]];
    destruct a as [mk ei dl ab rdl rab]; run_task_in_context.
Qed.


Lemma vd_process_item_never_raises (item : VideoDownload.queue_item)
    (a : VideoDownload.answers) :
  ending (VideoDownload.process_item item a) = Normal tt.
Proof.
  destruct item; [apply vd_download_video_never_raises | apply vd_local_never_raises].
Qed.

Lemma vd_worker_drains (tasks : list (VideoDownload.queue_item * VideoDownload.answers))
    (rest : list (option (VideoDownload.queue_item * VideoDownload.answers))) :
  VideoDownload.process_download_queue (map Some tasks ++ None :: rest)
  = (flat_map vd_task_trace tasks, Stopped).
Proof.
  induction tasks as [|[item a] tasks IH]; [reflexivity|].
  cbn [map app VideoDownload.process_download_queue flat_map].
  pose proof (vd_process_item_never_raises item a) as Hn.
  unfold vd_task_trace at 1. cbn [fst snd].
  destruct (VideoDownload.process_item item a) as [t o]. cbn in Hn. subst o.
  rewrite IH. cbn [effects fst]. now rewrite <- app_assoc.
Qed.


(** ** Abort inside a download task *)

Lemma vd_abort_no_post_processing (r : VideoDownload.download_request)
    (a : VideoDownload.answers) :
  VideoDownload.a_abort a = true ->
  existsb is_post_processing (effects (VideoDownload.download_video r a)) = false.
Proof.
  unfold VideoDownload.download_video, VideoDownload.download_body,
    VideoDownload.download_block.
  destruct a as [mk lm ei pf ab tr wt po ex], r as [u op res ao fn tc mc].
  cbn [VideoDownload.a_abort]. intros ->. run_task.
Qed.

(** C3.  In [video_download.py], for every download task during which the
    abort flag is set, the trace holds no transcribe call and no write of a
    transcript file, whatever the other calls answer.  When moreover the
    task reaches the download (the output directory could be made and, when
    a transcript is requested, the model could be loaded) and the calls into
    the download library return, the task reads the flag right after them,
    emits the message "Download aborted." and returns; its last event is the
    '-DOWNLOAD-COMPLETE-' of the [finally] clause. *)
Theorem aborted_download_skips_transcription
    (r : VideoDownload.download_request) (a : VideoDownload.answers) :
  VideoDownload.a_abort a = true ->
  let tr := effects (VideoDownload.download_video r a) in
  existsb is_post_processing tr = false
  /\ (forall downloaded_file,
        VideoDownload.a_makedirs a = None ->
        (VideoDownload.audio_only r && VideoDownload.transcribe r = true ->
         VideoDownload.a_load_model a = Ok tt) ->
        ending (VideoDownload.download_block r a) = Normal downloaded_file ->
        (exists pre,
           tr = pre ++ [AbortIsSet true;
                        WriteEventValue "-MESSAGE-" (PStr "Download aborted.");
                        WriteEventValue "-DOWNLOAD-COMPLETE-" (PBool true)]
           /\ In (ExtCall (YdlExtractInfo (VideoDownload.ydl_opts r)
                             (VideoDownload.url r) true) None) pre)
        /\ ending (VideoDownload.download_video r a) = Normal tt).
Proof.
  intros Habort tr. split; [now apply vd_abort_no_post_processing|].
  intros downloaded_file Hmk Hlm Hblock.
  assert (Hcall : In (ExtCall (YdlExtractInfo (VideoDownload.ydl_opts r)
                                 (VideoDownload.url r) true) None)
                     (effects (VideoDownload.download_block r a))).
  { revert Hblock. unfold VideoDownload.download_block.
    destruct (VideoDownload.a_extract_info a) as [[info|]|e],
      (VideoDownload.a_prepare_filename a) as [f|e']; simpl; try discriminate;
      intros _; now left. }
  subst tr. unfold VideoDownload.download_video, VideoDownload.download_body.
  rewrite Hmk, Habort.
  destruct (VideoDownload.download_block r a) as [t o]. cbn in Hblock, Hcall.
  subst o.
  destruct (VideoDownload.audio_only r && VideoDownload.transcribe r) eqn:Hat.
  - rewrite (Hlm eq_refl). simpl. split; [|reflexivity].
    eexists (_ :: _ :: _ :: _ :: _ :: t). split.
    + simpl. rewrite <- !app_assoc. reflexivity.
    + simpl. do 5 right. exact Hcall.
  - simpl. split; [|reflexivity].
    eexists (_ :: _ :: t). split.
    + simpl. rewrite <- !app_assoc. reflexivity.
    + simpl. do 2 right. exact Hcall.
Qed.

Lemma aborted_download_skips_transcription_witness :
  let tr := effects (VideoDownload.download_video vd_song (vd_answers true (Ok " la la "))) in
  existsb is_post_processing tr = false
  /\ (exists pre,
        tr = pre ++ [AbortIsSet true;
                     WriteEventValue "-MESSAGE-" (PStr "Download aborted.");
                     WriteEventValue "-DOWNLOAD-COMPLETE-" (PBool true)]
        /\ In (ExtCall (YdlExtractInfo (VideoDownload.ydl_opts vd_song)
                          "https://example.org/watch?v=1" true) None) pre)
  /\ ending (VideoDownload.download_video vd_song (vd_answers true (Ok " la la "))) = Normal tt.
Proof.
  intros tr.
  pose proof (aborted_download_skips_transcription vd_song
                (vd_answers true (Ok " la la ")) eq_refl) as [Hno Hreached].
  split; [exact Hno|].
  exact (Hreached "out/Song.mp3" eq_refl (fun _ => eq_refl) eq_refl).
Defined.

(** Without the abort the same task transcribes and writes the transcript. *)
Example download_then_transcribe :
  effects (VideoDownload.download_video vd_song (vd_answers false (Ok " la la ")))
  = [ ExtCall (OsMakedirs "out") None;
      LoggingInfo "Attempting to download from URL: https://example.org/watch?v=1";
      WriteEventValue "-MESSAGE-" (PStr "Loading Whisper model: turbo");
      ExtCall (WhisperLoadModel "turbo") None;
      WriteEventValue "-MESSAGE-" (PStr "Whisper model loaded successfully");
      ExtCall (YdlExtractInfo (VideoDownload.ydl_opts vd_song)
                 "https://example.org/watch?v=1" true) None;
      WriteEventValue "-MESSAGE-" (PStr "Downloading: Song");
      ExtCall (YdlPrepareFilename (VideoDownload.ydl_opts vd_song)) None;
      AbortIsSet false;
      WriteEventValue "-MESSAGE-" (PStr "Starting transcription...");
      ExtCall (WhisperTranscribe "out/Song.mp3") None;
      ExtCall (WriteTextFile "out/Song_transcript.txt" "la la") None;
      WriteEventValue "-MESSAGE-" (PStr "Transcription saved to: out/Song_transcript.txt");
      WriteEventValue "-MESSAGE-" (PStr "Download complete! File saved to: out");
      WriteEventValue "-PROGRESS-" (PInt 100);
      WriteEventValue "-DOWNLOAD-COMPLETE-" (PBool true) ].
Proof. reflexivity. Qed.

(** ** The subtitle retry of [youtube.py] *)

Lemma without_subtitles_lookup (opts : gmap string pyval) (k : string) :
  Youtube.without_subtitles opts !! k
  = if bool_decide (k ∈ subtitle_options) then None else opts !! k.
Proof.
  unfold Youtube.without_subtitles, subtitle_options.
  case_bool_decide as Hk.
  - repeat (apply elem_of_cons in Hk; destruct Hk as [->|Hk]);
      [| | |now apply elem_of_nil in Hk].
    + rewrite !lookup_delete_ne by discriminate. apply lookup_delete_eq.
    + rewrite lookup_delete_ne by discriminate. apply lookup_delete_eq.
    + apply lookup_delete_eq.
  - rewrite !lookup_delete_ne; [reflexivity| | |];
      intros <-; apply Hk; repeat constructor.
Qed.

(** C4, as the code has it.  When the first attempt of a download request
    fails, whatever its subtitle setting:
    - with a yt_dlp [DownloadError] whose message contains the text
      'subtitle', the task emits a message and calls the download exactly
      once more, with the keys 'writesubtitles', 'subtitleslangs' and
      'subtitlesformat' removed from the option dictionary and every other
      option unchanged;
    - with a [DownloadError] whose message does not contain 'subtitle', or
      with an exception of another class whatever its message, the failure
      is logged and surfaced as a message and no further call is made. *)
Theorem subtitle_download_error_retried_once
    (r : Youtube.download_request) (a : Youtube.answers) (e : exn) :
  ending (Youtube.first_attempt r a) = Raised e ->
  let tr := effects (Youtube.download_video r a) in
  let first := effects (Youtube.first_attempt r a) in
  match e with
  | DownloadError msg =>
      if str_contains "subtitle" msg then
        exists post,
          tr = first
               ++ [ WriteEventValue "-MESSAGE-"
                      (PStr ("Subtitles not available for " +:+ Youtube.url r
                             +:+ ". Downloading video without subtitles."));
                    ExtCall (YdlDownload (Youtube.without_subtitles (Youtube.ydl_opts r))
                               [Youtube.url r])
                            (raised_of (Youtube.a_retry_download a)) ]
               ++ post
          /\ existsb is_download_call post = false
          /\ existsb is_failure post = false
      else
        tr = first
             ++ [ LoggingError ("Download error: " +:+ msg);
                  WriteEventValue "-MESSAGE-" (PStr ("Download error: " +:+ msg));
                  WriteEventValue "-DOWNLOAD-COMPLETE-" (PBool true) ]
  | OtherException _ msg =>
      tr = first
           ++ [ LoggingError ("An unexpected error occurred: " +:+ msg);
                WriteEventValue "-MESSAGE-" (PStr ("An unexpected error occurred: " +:+ msg));
                WriteEventValue "-DOWNLOAD-COMPLETE-" (PBool true) ]
  end
  /\ (forall k, In k subtitle_options ->
        Youtube.without_subtitles (Youtube.ydl_opts r) !! k = None)
  /\ (forall k, ~ In k subtitle_options ->
        Youtube.without_subtitles (Youtube.ydl_opts r) !! k = Youtube.ydl_opts r !! k).
Proof.
  intros Hfirst tr first. split; [|split].
  - subst tr first. unfold Youtube.download_video.
    destruct (Youtube.first_attempt r a) as [t o]. cbn in Hfirst. subst o.
    destruct e as [msg|cls msg]; cbn [try_except Youtube.handler str_of_exn].
    + destruct (str_contains "subtitle" msg).
      * unfold Youtube.retry_without_subtitles.
        destruct (Youtube.a_retry_download a) as [[]|e'];
          [destruct (Youtube.a_retry_abort a)|]; simpl;
          eexists; (split; [rewrite <- ?app_assoc; simpl; reflexivity|]);
          split; reflexivity.
      * simpl. now rewrite <- app_assoc.
    + simpl. now rewrite <- app_assoc.
  - intros k Hk. rewrite without_subtitles_lookup.
    rewrite bool_decide_eq_true_2; [reflexivity|]. now apply list_elem_of_In.
  - intros k Hk. rewrite without_subtitles_lookup.
    rewrite bool_decide_eq_false_2; [reflexivity|]. now rewrite list_elem_of_In.
Qed.

Lemma subtitle_download_error_retried_once_witness :
  let r := yt_clip "https://example.org/watch?v=3" in
  let a := yt_answers (Err (DownloadError "ERROR: no subtitle track for en")) (Ok tt) false in
  (exists post,
     effects (Youtube.download_video r a)
     = effects (Youtube.first_attempt r a)
       ++ [ WriteEventValue "-MESSAGE-"
              (PStr ("Subtitles not available for https://example.org/watch?v=3"
                     +:+ ". Downloading video without subtitles."));
            ExtCall (YdlDownload (Youtube.without_subtitles (Youtube.ydl_opts r))
                       ["https://example.org/watch?v=3"]) None ]
       ++ post
     /\ existsb is_download_call post = false
     /\ existsb is_failure post = false)
  /\ (forall k, In k subtitle_options ->
        Youtube.without_subtitles (Youtube.ydl_opts r) !! k = None)
  /\ (forall k, ~ In k subtitle_options ->
        Youtube.without_subtitles (Youtube.ydl_opts r) !! k = Youtube.ydl_opts r !! k).
Proof.
  intros r a.
  exact (subtitle_download_error_retried_once r a
           (DownloadError "ERROR: no subtitle track for en") eq_refl).
Defined.

(** With subtitles requested the first attempt carries the subtitle options
    and the retry does not; 'skip_download', set together with them, stays. *)
Example retry_options :
  let opts := Youtube.ydl_opts (yt_clip "https://example.org/watch?v=3") in
  opts !! "writesubtitles" = Some (PBool true)
  /\ opts !! "subtitleslangs" = Some (PList [PStr "en"])
  /\ opts !! "subtitlesformat" = Some (PStr "srt")
  /\ Youtube.without_subtitles opts !! "writesubtitles" = None
  /\ Youtube.without_subtitles opts !! "subtitleslangs" = None
  /\ Youtube.without_subtitles opts !! "subtitlesformat" = None
  /\ Youtube.without_subtitles opts !! "skip_download" = Some (PBool false)
  /\ Youtube.without_subtitles opts !! "format"
     = Some (PStr "bestvideo[height<=720]+bestaudio/best").
Proof. repeat split; reflexivity. Qed.

(** C4 as stated fails: with subtitles enabled, a download call that fails
    with an error whose message mentions subtitles is not retried when the
    error is not a [DownloadError].  The trace holds the one failed download
    call and no second one. *)
Lemma subtitle_retry_counterexample :
  let r := yt_clip "https://example.org/watch?v=3" in
  let e := OtherException "PermissionError"
             "[Errno 13] Permission denied: 'out/subtitle tips.mp4'" in
  let a := yt_answers (Err e) (Ok tt) false in
  Youtube.subtitles r = true
  /\ str_contains "subtitle" (str_of_exn e) = true
  /\ effects (Youtube.download_video r a)
     = [ ExtCall (OsMakedirs "out") None;
         LoggingInfo "Attempting to download video from URL: https://example.org/watch?v=3";
         ExtCall (YdlExtractInfo (Youtube.ydl_opts r) "https://example.org/watch?v=3" false)
                 None;
         WriteEventValue "-MESSAGE-" (PStr "Downloading: Clip");
         ExtCall (YdlDownload (Youtube.ydl_opts r) ["https://example.org/watch?v=3"]) (Some e);
         LoggingError ("An unexpected error occurred: "
                       +:+ "[Errno 13] Permission denied: 'out/subtitle tips.mp4'");
         WriteEventValue "-MESSAGE-"
           (PStr ("An unexpected error occurred: "
                  +:+ "[Errno 13] Permission denied: 'out/subtitle tips.mp4'"));
         WriteEventValue "-DOWNLOAD-COMPLETE-" (PBool true) ].
Proof. repeat split; reflexivity. Qed.

(** ** The abort flag and the worker loop *)









(** Nothing in either event loop clears the abort flag: once the Abort
    button has set it, every later read by the worker finds it set. *)
Lemma vd_add_local_files_keeps_abort (paths : list string) (model : string)
    (st st' : VideoDownload.ui_state) :
  VideoDownload.add_local_files paths model st = VideoDownload.Continue st' ->
  VideoDownload.abort_event st' = VideoDownload.abort_event st.
Proof.
  revert st. induction paths as [|file_path paths IH]; intros st Hstep.
  - now injection Hstep as <-.
  - simpl in Hstep. destruct (negb (file_path =? "")%string); [|now apply IH].
    destruct (VideoDownload.queue_labels _); [|discriminate].
    now rewrite (IH _ Hstep).
Qed.

Lemma abort_event_never_cleared :
  (forall st st' ev values,
     VideoDownload.main_step st ev values = VideoDownload.Continue st' ->
     VideoDownload.abort_event st = true -> VideoDownload.abort_event st' = true)
  /\ (forall st st' ev values,
        Youtube.main_step st ev values = Youtube.Continue st' ->
        Youtube.abort_event st = true -> Youtube.abort_event st' = true).
Proof.
  split; intros st st' ev values Hstep Hset.
  - destruct ev; simpl in Hstep;
      try (injection Hstep as <-; exact Hset); try discriminate.
    + destruct (negb (VideoDownload.v_url values =? "")%string);
        [destruct (VideoDownload.queue_labels _); [|discriminate]|];
        injection Hstep as <-; exact Hset.
    + destruct files as [fs|]; [|injection Hstep as <-; exact Hset].
      destruct (negb (fs =? "")%string); [|injection Hstep as <-; exact Hset].
      now rewrite (vd_add_local_files_keeps_abort _ _ _ _ Hstep).
    + destruct (VideoDownload.queue_list st);
        [destruct (negb (VideoDownload.v_url values =? "")%string)|];
        injection Hstep as <-; exact Hset.
    + injection Hstep as <-. reflexivity.
    + destruct (negb (VideoDownload.v_audio values)); injection Hstep as <-; exact Hset.
  - destruct ev; simpl in Hstep;
      try (injection Hstep as <-; exact Hset); try discriminate.
    + destruct (negb (Youtube.v_url values =? "")%string);
        injection Hstep as <-; exact Hset.
    + destruct (Youtube.queue_list st);
        [destruct (negb (Youtube.v_url values =? "")%string)|];
        injection Hstep as <-; exact Hset.
    + injection Hstep as <-. reflexivity.
Qed.




(** ** Failures of a task *)








(** * Further properties of the code *)

(** ** More on [sanitize_filename] *)

Lemma append_cons (c : ascii) (s t : string) : String c s +:+ t = String c (s +:+ t).
Proof. reflexivity. Qed.

Lemma append_empty_l (s : string) : "" +:+ s = s.
Proof. reflexivity. Qed.

Lemma re_sub_class_app (cls : list ascii) (s t : string) :
  re_sub_class cls "" (s +:+ t) = re_sub_class cls "" s +:+ re_sub_class cls "" t.
Proof.
  induction s as [|c s IH]; [reflexivity|].
  rewrite append_cons. cbn [re_sub_class]. destruct (in_class cls c).
  - now rewrite !append_empty_l.
  - now rewrite append_cons, IH.
Qed.

Lemma sanitize_filename_chars (s : string) :
  list_ascii_of_string (sanitize_filename s) = strip_forbidden (list_ascii_of_string s).
Proof. unfold sanitize_filename. rewrite parse_class_body. apply re_sub_class_empty. Qed.

(** X1.  Sanitizing a concatenation is concatenating the sanitized parts:
    the function works character by character, so a name can be cleaned
    before or after an extension is appended. *)
Theorem sanitize_filename_app (s t : string) :
  sanitize_filename (s +:+ t) = sanitize_filename s +:+ sanitize_filename t.
Proof. unfold sanitize_filename. apply re_sub_class_app. Qed.

Lemma filter_id_iff {A} (p : A -> bool) (l : list A) :
  List.filter p l = l <-> (forall x, In x l -> p x = true).
Proof.
  induction l as [|x l IH]; simpl; [tauto|].
  destruct (p x) eqn:Hp; split.
  - intros [= H] y [<-|Hy]; [exact Hp|]. now apply IH.
  - intros H. f_equal. apply IH. auto.
  - intros H. exfalso.
    assert (Hlen : (List.length (List.filter p l) <= List.length l)%nat)
      by apply List.filter_length_le.
    rewrite H in Hlen. simpl in Hlen. lia.
  - intros H. specialize (H x (or_introl eq_refl)). congruence.
Qed.

(** X2.  A name is left unchanged exactly when it holds none of the nine
    forbidden characters. *)
Theorem sanitize_filename_fixed_iff (s : string) :
  sanitize_filename s = s
  <-> (forall c, In c (list_ascii_of_string s) -> is_forbidden c = false).
Proof.
  split.
  - intros H c Hc. rewrite <- H, sanitize_filename_chars in Hc.
    apply filter_In in Hc. destruct Hc as [_ Hc]. now destruct (is_forbidden c).
  - intros H. apply list_ascii_of_string_inj. rewrite sanitize_filename_chars.
    apply filter_id_iff. intros c Hc. now rewrite (H c Hc).
Qed.

(** X3.  The length of the result is the length of the input less the number
    of forbidden characters in it; a name made of forbidden characters only
    becomes the empty string. *)
Theorem sanitize_filename_length (s : string) :
  (String.length (sanitize_filename s)
   + List.length (List.filter is_forbidden (list_ascii_of_string s))
   = String.length s)%nat
  /\ ((forall c, In c (list_ascii_of_string s) -> is_forbidden c = true) ->
      sanitize_filename s = "").
Proof.
  split.
  - unfold sanitize_filename. rewrite parse_class_body.
    induction s as [|c s IH]; [reflexivity|].
    cbn [re_sub_class list_ascii_of_string List.filter String.length].
    fold (is_forbidden c). destruct (is_forbidden c).
    + rewrite append_empty_l. cbn [List.length]. lia.
    + cbn [String.length]. lia.
  - intros H. apply list_ascii_of_string_inj. rewrite sanitize_filename_chars.
    unfold strip_forbidden. induction (list_ascii_of_string s) as [|c l IH];
      [reflexivity|].
    simpl. rewrite (H c (or_introl eq_refl)). simpl. apply IH.
    intros c' Hc'. apply H. now right.
Qed.

Lemma sanitize_filename_length_witness :
  sanitize_filename ("<>:" +:+ String dquote "/\|?*") = "".
Proof.
  apply (proj2 (sanitize_filename_length ("<>:" +:+ String dquote "/\|?*"))).
  intros c Hc. simpl in Hc.
  repeat (destruct Hc as [<-|Hc]; [reflexivity|]). destruct Hc.
Defined.

(** ** More on [progress_hook] *)

Lemma progress_hook_percent (d : gmap string pyval) (total downloaded : Q) :
  d !! "status" = Some (PStr "downloading") ->
  total_byte_count d = Count total ->
  downloaded_count d = Some downloaded ->
  progress_hook d
  = ([WriteEventValue "-PROGRESS-" (PFloat (downloaded / total * 100)%Q)], Normal tt).
Proof.
  intros Hstatus Htotal Hdl.
  apply total_byte_count_known in Htotal. destruct Htotal as [Ht Hn].
  apply downloaded_count_number in Hdl.
  unfold progress_hook, dict_item. rewrite Hstatus. simpl.
  rewrite Ht. unfold py_truediv. rewrite Hdl, Hn.
  now rewrite (truthy_total_not_zero _ _ Ht Hn).
Qed.

(** X4.  Whatever the dictionary, the hook emits at most one event and only
    on the key '-PROGRESS-'.  A dictionary without 'status' makes it raise
    [KeyError]; a status other than 'downloading' and 'finished' is ignored;
    a known total with a 'downloaded_bytes' that is present but [None] makes
    it raise [TypeError] before anything is emitted. *)
Theorem progress_hook_events (d : gmap string pyval) :
  (effects (progress_hook d) = []
   \/ exists v, effects (progress_hook d) = [WriteEventValue "-PROGRESS-" v])
  /\ (d !! "status" = None ->
      exists msg, progress_hook d = ([], Raised (OtherException "KeyError" msg)))
  /\ (forall s, d !! "status" = Some s ->
        py_eq_str s "downloading" = false -> py_eq_str s "finished" = false ->
        progress_hook d = ([], Normal tt))
  /\ (forall total, d !! "status" = Some (PStr "downloading") ->
        total_byte_count d = Count total ->
        d !! "downloaded_bytes" = Some PNone ->
        exists msg, progress_hook d = ([], Raised (OtherException "TypeError" msg))).
Proof.
  split; [|split; [|split]].
  - unfold progress_hook, dict_item.
    destruct (d !! "status") as [s|]; simpl; [|now left].
    destruct (py_eq_str s "downloading"); simpl.
    + destruct (truthy _); simpl; [|now left].
      destruct (py_truediv _ _); simpl; [right; now eexists|now left].
    + destruct (py_eq_str s "finished"); simpl; [right; now eexists|now left].
  - intros H. unfold progress_hook, dict_item. rewrite H. now eexists.
  - intros s H Hd Hf. unfold progress_hook, dict_item. rewrite H. simpl.
    rewrite Hd. simpl. now rewrite Hf.
  - intros total Hstatus Htotal Hdl.
    apply total_byte_count_known in Htotal. destruct Htotal as [Ht Hn].
    unfold progress_hook, dict_item. rewrite Hstatus. simpl. rewrite Ht.
    unfold py_truediv, dict_get_default. rewrite Hdl. now eexists.
Qed.

Lemma progress_hook_events_witness :
  (exists msg, progress_hook ∅ = ([], Raised (OtherException "KeyError" msg)))
  /\ progress_hook {[ "status" := PStr "error" ]} = ([], Normal tt)
  /\ (exists msg,
        progress_hook {[ "status" := PStr "downloading"; "total_bytes" := PInt 10;
                         "downloaded_bytes" := PNone ]}
        = ([], Raised (OtherException "TypeError" msg))).
Proof.
  split; [|split].
  - exact (proj1 (proj2 (progress_hook_events ∅)) eq_refl).
  - exact (proj1 (proj2 (proj2 (progress_hook_events {[ "status" := PStr "error" ]})))
             (PStr "error") eq_refl eq_refl eq_refl).
  - exact (proj2 (proj2 (proj2 (progress_hook_events
             {[ "status" := PStr "downloading"; "total_bytes" := PInt 10;
                "downloaded_bytes" := PNone ]})))
             (inject_Z 10) eq_refl eq_refl eq_refl).
Defined.

(** X5.  While the downloaded count lies between 0 and a positive total, the
    percentage that the hook emits lies between 0 and 100. *)
Theorem progress_hook_percent_bounds (d : gmap string pyval) (total downloaded : Q) :
  d !! "status" = Some (PStr "downloading") ->
  total_byte_count d = Count total ->
  downloaded_count d = Some downloaded ->
  (0 < total)%Q -> (0 <= downloaded)%Q -> (downloaded <= total)%Q ->
  exists percent,
    progress_hook d = ([WriteEventValue "-PROGRESS-" (PFloat percent)], Normal tt)
    /\ (0 <= percent)%Q /\ (percent <= 100)%Q.
Proof.
  intros Hstatus Htotal Hdl Hpos Hlo Hhi.
  exists (downloaded / total * 100)%Q. split; [now apply progress_hook_percent|].
  assert (H0 : (0 <= downloaded / total)%Q).
  { apply Qle_shift_div_l; [exact Hpos|]. now rewrite Qmult_0_l. }
  assert (H1 : (downloaded / total <= 1)%Q).
  { apply Qle_shift_div_r; [exact Hpos|]. now rewrite Qmult_1_l. }
  split.
  - apply Qmult_le_0_compat; [exact H0|discriminate].
  - apply Qle_trans with (1 * 100)%Q; [|discriminate].
    apply Qmult_le_compat_r; [exact H1|discriminate].
Qed.

Lemma progress_hook_percent_bounds_witness :
  exists percent,
    progress_hook {[ "status" := PStr "downloading"; "total_bytes" := PInt 300;
                     "downloaded_bytes" := PInt 100 ]}
    = ([WriteEventValue "-PROGRESS-" (PFloat percent)], Normal tt)
    /\ (0 <= percent)%Q /\ (percent <= 100)%Q.
Proof.
  apply (progress_hook_percent_bounds _ (inject_Z 300) (inject_Z 100));
    reflexivity || discriminate.
Defined.

(** X6.  [total_bytes] has precedence: when it holds a number other than
    zero, the estimate is not looked at, so setting or changing
    [total_bytes_estimate] does not change what the hook does. *)
Theorem progress_hook_ignores_estimate (d : gmap string pyval) (total : Q) (v : pyval) :
  nonzero_count (d !! "total_bytes") = Count total ->
  progress_hook (<["total_bytes_estimate" := v]> d) = progress_hook d.
Proof.
  intros Htotal.
  assert (Ht : truthy (dict_get d "total_bytes") = true).
  { unfold dict_get, nonzero_count in *.
    destruct (d !! "total_bytes") as [[| |z|q| | | |]|]; try discriminate; simpl.
    - now destruct (z =? 0)%Z.
    - now destruct (Qeq_bool q 0). }
  unfold progress_hook, dict_item, py_or, dict_get, dict_get_default in *.
  rewrite !(lookup_insert_ne d "total_bytes_estimate" "status") by discriminate.
  rewrite !(lookup_insert_ne d "total_bytes_estimate" "total_bytes") by discriminate.
  rewrite !(lookup_insert_ne d "total_bytes_estimate" "downloaded_bytes") by discriminate.
  destruct (d !! "status") as [s|]; simpl; [|reflexivity].
  now rewrite Ht.
Qed.

Lemma progress_hook_ignores_estimate_witness :
  let d : gmap string pyval :=
    {[ "status" := PStr "downloading"; "total_bytes" := PInt 300;
       "downloaded_bytes" := PInt 100 ]} in
  progress_hook (<["total_bytes_estimate" := PInt 7]> d) = progress_hook d.
Proof.
  intros d. exact (progress_hook_ignores_estimate d (inject_Z 300) (PInt 7) eq_refl).
Defined.

(** ** More on the configuration *)



(** X8.  Once a load has succeeded, every further load returns the same
    settings and changes nothing: [main] and [DownloadManager], which both
    call [load_config] at startup, see the same configuration, also when the
    first call had to create the file. *)
Theorem load_config_stable (fs fs' : gmap string VideoDownload.file) (config : pyval) :
  VideoDownload.load_config fs = (Ok config, fs') ->
  VideoDownload.load_config fs' = (Ok config, fs').
Proof.
  unfold VideoDownload.load_config, VideoDownload.open_read.
  destruct (fs !! VideoDownload.CONFIG_FILE) as [[v|text]|] eqn:Hfile; simpl.
  - intros [= <- <-]. now rewrite Hfile.
  - discriminate.
  - intros [= <- <-]. unfold VideoDownload.save_config. now rewrite lookup_insert_eq.
Qed.

Lemma load_config_stable_witness :
  VideoDownload.load_config {[ "config.json" := VideoDownload.JsonFile VideoDownload.DEFAULT_CONFIG ]}
  = (Ok VideoDownload.DEFAULT_CONFIG,
     {[ "config.json" := VideoDownload.JsonFile VideoDownload.DEFAULT_CONFIG ]}).
Proof. exact (load_config_stable ∅ _ VideoDownload.DEFAULT_CONFIG eq_refl). Defined.

(** ** More on the download tasks *)

Lemma effects_call_fn_try_finally {R' : Type} (body : M unit unit) (e : effect) :
  effects (call_fn (R' := R') (try_finally body (emit e))) = effects body ++ [e].
Proof. destruct body as [t [[]|[]|x]]; reflexivity. Qed.

Lemma vd_no_complete_before_finally (r : VideoDownload.download_request)
    (a : VideoDownload.answers) :
  existsb is_download_complete
    (effects (try_except (VideoDownload.download_body r a)
                (fun e =>
                   let error_msg := "An error occurred: " +:+ str_of_exn e in
                   logging_error error_msg;;
                   write_event_value "-MESSAGE-" (PStr error_msg)))) = false.
Proof.
  unfold VideoDownload.download_body, VideoDownload.download_block,
    VideoDownload.transcription_block.
  destruct a as [mk lm ei pf ab tr wt po ex], r as [u op res ao fn tc mc]. run_task.
Qed.

Lemma yt_no_complete_before_finally (r : Youtube.download_request) (a : Youtube.answers) :
  existsb is_download_complete
    (effects (try_except (Youtube.first_attempt r a) (Youtube.handler r a))) = false.
Proof.
  unfold Youtube.first_attempt, Youtube.handler, Youtube.retry_without_subtitles.
  destruct a as [mk ei dl ab rdl rab], r as [u op res ao fn sb]. run_task.
Qed.

(** X9.  However a download task ends (finished, aborted, failed, or, in
    [youtube.py], with an exception that leaves the function), its last
    event is '-DOWNLOAD-COMPLETE-' and it emits that event exactly once. *)
Theorem download_complete_is_last_and_once :
  (forall r a,
     exists pre,
       effects (VideoDownload.download_video r a)
       = pre ++ [WriteEventValue "-DOWNLOAD-COMPLETE-" (PBool true)]
       /\ existsb is_download_complete pre = false)
  /\ (forall r a,
        exists pre,
          effects (Youtube.download_video r a)
          = pre ++ [WriteEventValue "-DOWNLOAD-COMPLETE-" (PBool true)]
          /\ existsb is_download_complete pre = false).
Proof.
  split; intros r a; eexists; split.
  - unfold VideoDownload.download_video. apply effects_call_fn_try_finally.
  - apply vd_no_complete_before_finally.
  - unfold Youtube.download_video. apply effects_call_fn_try_finally.
  - apply yt_no_complete_before_finally.
Qed.




(** X12.  When a transcript is requested and the whisper model cannot be
    loaded, the task stops before the download: it emits the error message
    and '-DOWNLOAD-COMPLETE-', returns normally, and makes no call into the
    download library, no transcription and no log record. *)
Theorem vd_model_failure_stops_before_download (r : VideoDownload.download_request)
    (a : VideoDownload.answers) (e : exn) :
  VideoDownload.audio_only r && VideoDownload.transcribe r = true ->
  VideoDownload.a_makedirs a = None ->
  VideoDownload.a_load_model a = Err e ->
  VideoDownload.download_video r a
  = ( [ ExtCall (OsMakedirs (VideoDownload.output_path r)) None;
        LoggingInfo ("Attempting to download from URL: " +:+ VideoDownload.url r);
        WriteEventValue "-MESSAGE-"
          (PStr ("Loading Whisper model: " +:+ VideoDownload.model_choice r));
        ExtCall (WhisperLoadModel (VideoDownload.model_choice r)) (Some e);
        WriteEventValue "-MESSAGE-"
          (PStr ("Error loading Whisper model: " +:+ str_of_exn e));
        WriteEventValue "-DOWNLOAD-COMPLETE-" (PBool true) ],
      Normal tt ).
Proof.
  intros Hat Hmk Hlm.
  unfold VideoDownload.download_video, VideoDownload.download_body.
  now rewrite Hat, Hmk, Hlm.
Qed.

Lemma vd_model_failure_stops_before_download_witness :
  let a : VideoDownload.answers :=
    {| VideoDownload.a_makedirs := None;
       VideoDownload.a_load_model := Err (OtherException "RuntimeError" "no such model");
       VideoDownload.a_extract_info := Ok None;
       VideoDownload.a_prepare_filename := Ok "";
       VideoDownload.a_abort := false;
       VideoDownload.a_transcribe := Ok "";
       VideoDownload.a_write_transcript := None;
       VideoDownload.a_popen := Ok (0%Z, "");
       VideoDownload.a_exists := true |} in
  existsb is_download_call (effects (VideoDownload.download_video vd_song a)) = false.
Proof.
  intros a.
  rewrite (vd_model_failure_stops_before_download vd_song a
             (OtherException "RuntimeError" "no such model") eq_refl eq_refl eq_refl).
  reflexivity.
Defined.

(** X13.  A transcription that fails after a finished download does not fail
    the task: the error is surfaced as a message and the download is still
    reported complete, with progress 100. *)
Theorem vd_failed_transcription_still_complete (r : VideoDownload.download_request)
    (a : VideoDownload.answers) (downloaded_file : string) (e : exn) :
  VideoDownload.audio_only r && VideoDownload.transcribe r = true ->
  VideoDownload.a_makedirs a = None ->
  VideoDownload.a_load_model a = Ok tt ->
  ending (VideoDownload.download_block r a) = Normal downloaded_file ->
  downloaded_file <> "" ->
  VideoDownload.a_abort a = false ->
  VideoDownload.a_transcribe a = Err e ->
  exists pre,
    effects (VideoDownload.download_video r a)
    = pre ++ [ ExtCall (WhisperTranscribe downloaded_file) (Some e);
               WriteEventValue "-MESSAGE-" (PStr ("Transcription error: " +:+ str_of_exn e));
               WriteEventValue "-MESSAGE-"
                 (PStr ("Download complete! File saved to: " +:+ VideoDownload.output_path r));
               WriteEventValue "-PROGRESS-" (PInt 100);
               WriteEventValue "-DOWNLOAD-COMPLETE-" (PBool true) ]
    /\ existsb is_transcript_written (effects (VideoDownload.download_video r a)) = false.
Proof.
  intros Hat Hmk Hlm Hblock Hfile Habort Htr.
  assert (Hnw : existsb is_transcript_written (effects (VideoDownload.download_block r a))
                = false).
  { unfold VideoDownload.download_block.
    destruct (VideoDownload.a_extract_info a) as [[info|]|],
      (VideoDownload.a_prepare_filename a); reflexivity. }
  unfold VideoDownload.download_video, VideoDownload.download_body,
    VideoDownload.transcription_block.
  rewrite Hat, Hmk, Hlm, Habort, Htr.
  destruct (VideoDownload.download_block r a) as [t o]. cbn in Hblock, Hnw. subst o.
  apply String.eqb_neq in Hfile. simpl. rewrite Hfile. simpl.
  eexists (_ :: _ :: _ :: _ :: _ :: t ++ [_; _]). split.
  - simpl. rewrite <- !app_assoc. reflexivity.
  - rewrite !existsb_app, Hnw. reflexivity.
Qed.

Lemma vd_failed_transcription_still_complete_witness :
  let boom := OtherException "RuntimeError" "CUDA out of memory" in
  exists pre,
    effects (VideoDownload.download_video vd_song (vd_answers false (Err boom)))
    = pre ++ [ ExtCall (WhisperTranscribe "out/Song.mp3") (Some boom);
               WriteEventValue "-MESSAGE-" (PStr "Transcription error: CUDA out of memory");
               WriteEventValue "-MESSAGE-" (PStr "Download complete! File saved to: out");
               WriteEventValue "-PROGRESS-" (PInt 100);
               WriteEventValue "-DOWNLOAD-COMPLETE-" (PBool true) ]
    /\ existsb is_transcript_written
         (effects (VideoDownload.download_video vd_song (vd_answers false (Err boom))))
       = false.
Proof.
  intros boom.
  apply (vd_failed_transcription_still_complete vd_song (vd_answers false (Err boom))
           "out/Song.mp3" boom); try reflexivity. discriminate.
Defined.

(** ** More on the transcription of local files *)

(** X14.  [process_local_transcription_file] starts ffmpeg only for a file
    whose name does not end in '.mp3' (whatever the case of the letters);
    when the conversion does not succeed (ffmpeg cannot be started, returns
    a code other than 0, or leaves no output file) whisper is never called;
    when it succeeds and the model loads, it is the converted file that is
    transcribed. *)
Theorem local_conversion_gate (file_path model : string) (a : VideoDownload.answers) :
  let tr := effects (VideoDownload.process_local_transcription_file file_path model a) in
  let converted := (os_path_splitext file_path).1 +:+ "_converted.mp3" in
  (str_endswith (str_lower file_path) ".mp3" = true ->
   existsb is_ffmpeg_call tr = false)
  /\ (str_endswith (str_lower file_path) ".mp3" = false -> conversion_ok a = false ->
      existsb is_whisper_call tr = false)
  /\ (str_endswith (str_lower file_path) ".mp3" = false -> conversion_ok a = true ->
      VideoDownload.a_load_model a = Ok tt ->
      In (ExtCall (WhisperTranscribe converted) (raised_of (VideoDownload.a_transcribe a))) tr).
Proof.
  unfold VideoDownload.process_local_transcription_file, VideoDownload.convert_to_mp3,
    conversion_ok.
  split; [|split].
  - intros ->. destruct a as [mk lm ei pf ab tr wt po ex]. run_task.
  - intros ->. destruct a as [mk lm ei pf ab tr wt [[rc err]|e] ex];
      cbn [VideoDownload.a_popen VideoDownload.a_exists]; [|reflexivity].
    destruct (rc =? 0)%Z eqn:Hrc; cbn [andb negb]; [intros ->|intros _];
      simpl; rewrite ?Hrc; reflexivity.
  - intros ->. destruct a as [mk lm ei pf ab tr wt [[rc err]|e] ex];
      cbn [VideoDownload.a_popen VideoDownload.a_exists VideoDownload.a_load_model
           VideoDownload.a_transcribe]; [|discriminate].
    destruct (rc =? 0)%Z eqn:Hrc; cbn [andb]; [|discriminate].
    intros -> ->. simpl. rewrite Hrc. simpl.
    destruct tr as [text|e]; simpl; [destruct wt as [[? ?]|]; simpl|]; tauto.
Qed.

Lemma local_conversion_gate_witness :
  existsb is_ffmpeg_call
    (effects (VideoDownload.process_local_transcription_file "Talk.MP3" "turbo"
                (vd_answers false (Ok "hi")))) = false
  /\ In (ExtCall (WhisperTranscribe "talk_converted.mp3") None)
        (effects (VideoDownload.process_local_transcription_file "talk.wav" "turbo"
                    (vd_answers false (Ok "hi")))).
Proof.
  split.
  - exact (proj1 (local_conversion_gate "Talk.MP3" "turbo" (vd_answers false (Ok "hi")))
             eq_refl).
  - exact (proj2 (proj2 (local_conversion_gate "talk.wav" "turbo"
                           (vd_answers false (Ok "hi"))))
             eq_refl eq_refl eq_refl).
Defined.

(** X15.  The progress that a local transcription task reports last tells
    how it went: 100 exactly when the transcript file was written, 0 in
    every other case (conversion, model or transcription failed).  The task
    makes no call into the download library. *)
Theorem local_final_progress (file_path model : string) (a : VideoDownload.answers) :
  let tr := effects (VideoDownload.process_local_transcription_file file_path model a) in
  (existsb is_transcript_written tr = true /\ last_progress tr = Some (PInt 100)
   \/ existsb is_transcript_written tr = false /\ last_progress tr = Some (PInt 0))
  /\ existsb is_download_call tr = false.
Proof.
  unfold VideoDownload.process_local_transcription_file, VideoDownload.convert_to_mp3.
  destruct a as [mk lm ei pf ab tr wt po ex]. split; [|run_task].
  repeat (simpl; decide_answer); simpl;
    first [left; split; reflexivity | right; split; reflexivity].
Qed.

(** ** More on [youtube.py] *)

Lemma yt_opts_without_subtitle_keys (r : Youtube.download_request) (k : string) :
  Youtube.subtitles r && negb (Youtube.audio_only r) = false ->
  In k subtitle_options ->
  Youtube.ydl_opts r !! k = None.
Proof.
  intros H Hk. unfold Youtube.ydl_opts. rewrite H.
  destruct Hk as [<-|[<-|[<-|[]]]];
    destruct (negb (Youtube.filename r =? "")%string); reflexivity.
Qed.

(** X16.  When the request carries no subtitle options (subtitles not
    requested, or audio only), the retry after a [DownloadError] mentioning
    'subtitle' downloads again with exactly the options of the first
    attempt. *)
Theorem yt_retry_repeats_without_subtitle_options (r : Youtube.download_request) :
  Youtube.subtitles r && negb (Youtube.audio_only r) = false ->
  Youtube.without_subtitles (Youtube.ydl_opts r) = Youtube.ydl_opts r.
Proof.
  intros H. unfold Youtube.without_subtitles.
  rewrite (delete_id _ "writesubtitles");
    [|apply yt_opts_without_subtitle_keys; [exact H|now left]].
  rewrite (delete_id _ "subtitleslangs");
    [|apply yt_opts_without_subtitle_keys; [exact H|right; now left]].
  apply delete_id, yt_opts_without_subtitle_keys; [exact H|do 2 right; now left].
Qed.

Lemma yt_retry_repeats_without_subtitle_options_witness :
  let r :=
    {| Youtube.url := "https://example.org/watch?v=5"; Youtube.output_path := "out";
       Youtube.resolution := "720"; Youtube.audio_only := true;
       Youtube.filename := "talk"; Youtube.subtitles := true |} in
  Youtube.without_subtitles (Youtube.ydl_opts r) = Youtube.ydl_opts r.
Proof. intros r. exact (yt_retry_repeats_without_subtitle_options r eq_refl). Defined.

Lemma yt_download_video_raises (r : Youtube.download_request) (a : Youtube.answers) :
  retry_raises r a = true ->
  exists e, Youtube.a_retry_download a = Err e
            /\ ending (Youtube.download_video r a) = Raised e.
Proof.
  unfold retry_raises, Youtube.download_video, Youtube.handler,
    Youtube.retry_without_subtitles.
  destruct (Youtube.first_attempt r a) as [t [[]|[]|[msg|cls msg]]];
    cbn [ending snd]; try discriminate.
  cbn [try_except str_of_exn].
  destruct (str_contains "subtitle" msg); [|discriminate].
  destruct (Youtube.a_retry_download a) as [[]|e]; [discriminate|].
  intros _. exists e. split; reflexivity.
Qed.

(** X17.  In [youtube.py] an exception leaves [download_video] exactly when
    the first attempt failed with a [DownloadError] mentioning 'subtitle'
    and the retried download raised too; it is then the exception of the
    retry.  The worker, having processed the entries before that task, ends
    with this exception: it calls no [task_done] for the task and takes no
    further entry. *)
Theorem yt_worker_dies_with_failed_retry :
  (forall r a,
     retry_raises r a = true
     <-> exists e, ending (Youtube.download_video r a) = Raised e)
  /\ (forall tasks r a rest,
        Forall (fun t => retry_raises t.1 t.2 = false) tasks ->
        retry_raises r a = true ->
        exists e,
          Youtube.a_retry_download a = Err e
          /\ Youtube.process_download_queue (map Some tasks ++ Some (r, a) :: rest)
             = (flat_map yt_task_trace tasks ++ effects (Youtube.download_video r a),
                Died e)).
Proof.
  split.
  - intros r a. split.
    + intros H. destruct (yt_download_video_raises r a H) as [e [_ He]]. now exists e.
    + intros [e He]. destruct (retry_raises r a) eqn:Hr; [reflexivity|].
      rewrite (yt_download_video_never_raises r a Hr) in He. discriminate.
  - intros tasks r a rest Hok Hr.
    destruct (yt_download_video_raises r a Hr) as [e [Hretry He]].
    exists e. split; [exact Hretry|].
    induction tasks as [|[item b] tasks IH].
    + cbn [map app flat_map Youtube.process_download_queue].
      destruct (Youtube.download_video r a) as [t o]. cbn in He. subst o. reflexivity.
    + apply Forall_cons in Hok. destruct Hok as [Hb Hok].
      cbn [map app flat_map Youtube.process_download_queue].
      pose proof (yt_download_video_never_raises item b Hb) as Hn.
      unfold yt_task_trace at 1. cbn [fst snd].
      destruct (Youtube.download_video item b) as [t o]. cbn in Hn. subst o.
      rewrite (IH Hok). cbn [effects fst]. now rewrite <- !app_assoc.
Qed.

Lemma yt_worker_dies_with_failed_retry_witness :
  let offline := DownloadError "ERROR: network is unreachable" in
  let a := yt_answers (Err (DownloadError "ERROR: no subtitle track for en"))
             (Err offline) false in
  exists e,
    Youtube.a_retry_download a = Err e
    /\ Youtube.process_download_queue
         (map Some [(yt_clip "https://example.org/watch?v=4", yt_answers (Ok tt) (Ok tt) false)]
          ++ Some (yt_clip "https://example.org/watch?v=3", a)
             :: [Some (yt_clip "https://example.org/watch?v=5", yt_answers (Ok tt) (Ok tt) false);
                 None])
       = (flat_map yt_task_trace
            [(yt_clip "https://example.org/watch?v=4", yt_answers (Ok tt) (Ok tt) false)]
          ++ effects (Youtube.download_video (yt_clip "https://example.org/watch?v=3") a),
          Died e).
Proof.
  intros offline a.
  apply (proj2 yt_worker_dies_with_failed_retry); [repeat constructor|reflexivity].
Defined.


(** After a retry that succeeded: the trace ends without any report. *)
Example yt_silent_after_retry :
  let r := yt_clip "https://example.org/watch?v=3" in
  Youtube.download_video r
    (yt_answers (Err (DownloadError "ERROR: no subtitle track for en")) (Ok tt) false)
  = ( [ ExtCall (OsMakedirs "out") None;
        LoggingInfo "Attempting to download video from URL: https://example.org/watch?v=3";
        ExtCall (YdlExtractInfo (Youtube.ydl_opts r) "https://example.org/watch?v=3" false)
                None;
        WriteEventValue "-MESSAGE-" (PStr "Downloading: Clip");
        ExtCall (YdlDownload (Youtube.ydl_opts r) ["https://example.org/watch?v=3"])
                (Some (DownloadError "ERROR: no subtitle track for en"));
        WriteEventValue "-MESSAGE-"
          (PStr ("Subtitles not available for https://example.org/watch?v=3"
                 +:+ ". Downloading video without subtitles."));
        ExtCall (YdlDownload (Youtube.without_subtitles (Youtube.ydl_opts r))
                   ["https://example.org/watch?v=3"]) None;
        AbortIsSet false;
        WriteEventValue "-DOWNLOAD-COMPLETE-" (PBool true) ],
      Normal tt ).
Proof. reflexivity. Qed.

(** ** The output template *)

Lemma list_ascii_of_string_app (s t : string) :
  list_ascii_of_string (s +:+ t) = list_ascii_of_string s ++ list_ascii_of_string t.
Proof.
  induction s as [|c s IH]; [reflexivity|].
  rewrite append_cons. cbn [list_ascii_of_string app]. now rewrite IH.
Qed.

Lemma not_forbidden_not_separator (c : ascii) :
  is_forbidden c = false -> c <> "/"%char /\ c <> "\"%char.
Proof. intros H. split; intros ->; discriminate H. Qed.

Lemma prefix_slash_head (c : ascii) (s : string) :
  c <> "/"%char -> String.prefix "/" (String c s) = false.
Proof.
  intros H. cbn [String.prefix]. destruct (ascii_dec "/" c) as [Heq|Hne]; [|reflexivity].
  now subst c.
Qed.

(** A file name built from a sanitized name and an extension that starts
    with a dot: no path separator in it, and not an absolute path. *)
Lemma custom_name_is_plain (name ext_tail : string) :
  (forall c, In c (list_ascii_of_string ext_tail) -> c <> "/"%char /\ c <> "\"%char) ->
  let base := sanitize_filename name +:+ String "."%char ext_tail in
  (forall c, In c (list_ascii_of_string base) -> c <> "/"%char /\ c <> "\"%char)
  /\ String.prefix "/" base = false.
Proof.
  intros Hext base. subst base.
  assert (Hsan : forall c, In c (list_ascii_of_string (sanitize_filename name)) ->
                           c <> "/"%char /\ c <> "\"%char).
  { intros c Hc. apply not_forbidden_not_separator.
    rewrite sanitize_filename_chars in Hc. apply filter_In in Hc.
    destruct Hc as [_ Hc]. now destruct (is_forbidden c). }
  split.
  - intros c Hc. rewrite list_ascii_of_string_app in Hc. apply in_app_or in Hc.
    destruct Hc as [Hc|Hc]; [now apply Hsan|].
    cbn [list_ascii_of_string] in Hc. destruct Hc as [<-|Hc]; [split; discriminate|].
    now apply Hext.
  - destruct (sanitize_filename name) as [|c s] eqn:Hs.
    + reflexivity.
    + rewrite append_cons. apply prefix_slash_head.
      apply (Hsan c). now left.
Qed.

Lemma os_path_join_relative (a b : string) :
  String.prefix "/" b = false ->
  os_path_join a b = a +:+ b \/ os_path_join a b = a +:+ "/" +:+ b.
Proof.
  intros H. unfold os_path_join. rewrite H.
  destruct ((a =? "")%string || str_endswith a "/"); [now left|now right].
Qed.

(** X19.  In both scripts a custom file name cannot move the download out
    of the output directory: the output template is the output path,
    possibly a '/', and then a base name that holds no '/' and no '\' (the
    sanitized name followed by the extension).  When every character of the
    name is forbidden, the base name is the bare extension. *)
Theorem custom_filename_stays_in_output_path :
  (forall r, VideoDownload.filename r <> "" ->
     let ext := if VideoDownload.audio_only r then ".mp3" else ".mp4" in
     let base := sanitize_filename (VideoDownload.filename r) +:+ ext in
     (VideoDownload.ydl_opts r !! "outtmpl"
        = Some (PStr (VideoDownload.output_path r +:+ base))
      \/ VideoDownload.ydl_opts r !! "outtmpl"
        = Some (PStr (VideoDownload.output_path r +:+ "/" +:+ base)))
     /\ (forall c, In c (list_ascii_of_string base) -> c <> "/"%char /\ c <> "\"%char)
     /\ ((forall c, In c (list_ascii_of_string (VideoDownload.filename r)) ->
            is_forbidden c = true) -> base = ext))
  /\ (forall r, Youtube.filename r <> "" ->
        let base := sanitize_filename (Youtube.filename r) +:+ ".%(ext)s" in
        (Youtube.ydl_opts r !! "outtmpl" = Some (PStr (Youtube.output_path r +:+ base))
         \/ Youtube.ydl_opts r !! "outtmpl"
            = Some (PStr (Youtube.output_path r +:+ "/" +:+ base)))
        /\ (forall c, In c (list_ascii_of_string base) -> c <> "/"%char /\ c <> "\"%char)
        /\ ((forall c, In c (list_ascii_of_string (Youtube.filename r)) ->
               is_forbidden c = true) -> base = ".%(ext)s")).
Proof.
  split.
  - intros r Hname ext base.
    assert (Hplain : (forall c, In c (list_ascii_of_string base) ->
                                c <> "/"%char /\ c <> "\"%char)
                     /\ String.prefix "/" base = false).
    { subst base ext. destruct (VideoDownload.audio_only r);
        apply custom_name_is_plain; intros c Hc; simpl in Hc;
        repeat (destruct Hc as [<-|Hc]; [split; discriminate|]); destruct Hc. }
    destruct Hplain as [Hchars Hrel]. split; [|split; [exact Hchars|]].
    + assert (Hopt : VideoDownload.ydl_opts r !! "outtmpl"
                     = Some (PStr (os_path_join (VideoDownload.output_path r) base))).
      { unfold VideoDownload.ydl_opts. apply String.eqb_neq in Hname. rewrite Hname.
        cbn [negb]. apply lookup_insert_eq. }
      rewrite Hopt.
      destruct (os_path_join_relative (VideoDownload.output_path r) base Hrel) as [->| ->];
        [now left|now right].
    + intros Hall. subst base.
      assert (Hempty : sanitize_filename (VideoDownload.filename r) = "").
      { apply list_ascii_of_string_inj. rewrite sanitize_filename_chars.
        unfold strip_forbidden.
        induction (list_ascii_of_string (VideoDownload.filename r)) as [|c l IH];
          [reflexivity|].
        simpl. rewrite (Hall c (or_introl eq_refl)). simpl. apply IH.
        intros c' Hc'. apply Hall. now right. }
      now rewrite Hempty.
  - intros r Hname base.
    assert (Hplain : (forall c, In c (list_ascii_of_string base) ->
                                c <> "/"%char /\ c <> "\"%char)
                     /\ String.prefix "/" base = false).
    { subst base. apply custom_name_is_plain. intros c Hc. simpl in Hc.
      repeat (destruct Hc as [<-|Hc]; [split; discriminate|]). destruct Hc. }
    destruct Hplain as [Hchars Hrel]. split; [|split; [exact Hchars|]].
    + assert (Hopt : Youtube.ydl_opts r !! "outtmpl"
                     = Some (PStr (os_path_join (Youtube.output_path r) base))).
      { unfold Youtube.ydl_opts. apply String.eqb_neq in Hname. rewrite Hname.
        cbn [negb]. apply lookup_insert_eq. }
      rewrite Hopt.
      destruct (os_path_join_relative (Youtube.output_path r) base Hrel) as [->| ->];
        [now left|now right].
    + intros Hall. subst base.
      assert (Hempty : sanitize_filename (Youtube.filename r) = "").
      { apply list_ascii_of_string_inj. rewrite sanitize_filename_chars.
        unfold strip_forbidden.
        induction (list_ascii_of_string (Youtube.filename r)) as [|c l IH];
          [reflexivity|].
        simpl. rewrite (Hall c (or_introl eq_refl)). simpl. apply IH.
        intros c' Hc'. apply Hall. now right. }
      now rewrite Hempty.
Qed.

Lemma custom_filename_stays_in_output_path_witness :
  VideoDownload.ydl_opts vd_film !! "outtmpl" = Some (PStr "out/myfilm.mp4").
Proof.
  destruct (proj1 (proj1 custom_filename_stays_in_output_path vd_film
                     ltac:(discriminate))) as [H|H];
    [discriminate H | exact H].
Defined.

(** ** More on the worker loop *)

Lemma vd_no_task_done_inside (item : VideoDownload.queue_item) (a : VideoDownload.answers) :
  List.filter is_task_done (effects (VideoDownload.process_item item a)) = [].
Proof.
  destruct item as [r|file_path model]; cbn [VideoDownload.process_item].
  - unfold VideoDownload.download_video, VideoDownload.download_body,
      VideoDownload.download_block, VideoDownload.transcription_block.
    destruct a as [mk lm ei pf ab tr wt po ex], r as [u op res ao fn tc mc]. run_task.
  - unfold VideoDownload.process_local_transcription_file, VideoDownload.convert_to_mp3.
    destruct a as [mk lm ei pf ab tr wt po ex]. run_task.
Qed.

Lemma vd_worker_without_sentinel
    (tasks : list (VideoDownload.queue_item * VideoDownload.answers)) :
  VideoDownload.process_download_queue (map Some tasks)
  = (flat_map vd_task_trace tasks, Blocked).
Proof.
  induction tasks as [|[item a] tasks IH]; [reflexivity|].
  cbn [map VideoDownload.process_download_queue flat_map].
  pose proof (vd_process_item_never_raises item a) as Hn.
  unfold vd_task_trace at 1. cbn [fst snd].
  destruct (VideoDownload.process_item item a) as [t o]. cbn in Hn. subst o.
  rewrite IH. cbn [effects fst]. now rewrite <- app_assoc.
Qed.

Lemma vd_task_done_count (tasks : list (VideoDownload.queue_item * VideoDownload.answers)) :
  List.length (List.filter is_task_done (flat_map vd_task_trace tasks)) = List.length tasks.
Proof.
  induction tasks as [|[item a] tasks IH]; [reflexivity|].
  cbn [flat_map]. unfold vd_task_trace at 1. cbn [fst snd].
  rewrite !List.filter_app, vd_no_task_done_inside. cbn. now rewrite IH.
Qed.

(** X20.  The worker of [video_download.py] calls [task_done] exactly once
    for every entry it takes; entries after the sentinel are never looked
    at; and
    without a sentinel the thread never leaves the loop: after the last
    entry it waits for the next. *)
Theorem vd_worker_task_done_once_per_entry
    (tasks : list (VideoDownload.queue_item * VideoDownload.answers))
    (rest : list (option (VideoDownload.queue_item * VideoDownload.answers))) :
  List.length (List.filter is_task_done
                 (VideoDownload.process_download_queue (map Some tasks ++ None :: rest)).1)
  = List.length tasks
  /\ VideoDownload.process_download_queue (map Some tasks ++ None :: rest)
     = VideoDownload.process_download_queue (map Some tasks ++ [None])
  /\ (VideoDownload.process_download_queue (map Some tasks)).2 = Blocked
  /\ List.length (List.filter is_task_done
                    (VideoDownload.process_download_queue (map Some tasks)).1)
     = List.length tasks.
Proof.
  rewrite !vd_worker_drains, vd_worker_without_sentinel. cbn [fst snd].
  rewrite vd_task_done_count. auto.
Qed.

(** ** More on the event loops *)

Lemma vd_queue_labels_with_download (l : list VideoDownload.queue_item)
    (r : VideoDownload.download_request) :
  VideoDownload.queue_labels (l ++ [VideoDownload.DownloadItem r])
  = Err (OtherException "KeyError" "'local_file'").
Proof.
  induction l as [|item l IH]; [reflexivity|].
  cbn [app VideoDownload.queue_labels]. rewrite IH.
  now destruct item.
Qed.

(** X21.  In [video_download.py], pressing 'Add to Queue' with a URL filled
    in ends the event loop, from every state: the new item is appended to
    the pending list, and the list comprehension that refreshes the list box
    then raises [KeyError] on ['local_file'], so neither the list box nor
    the log is updated.  With an empty URL the handler only shows a popup. *)
Theorem vd_add_queue_always_crashes (st : VideoDownload.ui_state)
    (values : VideoDownload.form_values) :
  (VideoDownload.v_url values <> "" ->
   exists st',
     VideoDownload.main_step st VideoDownload.ADD_QUEUE values
     = VideoDownload.Crash st' (OtherException "KeyError" "'local_file'")
     /\ VideoDownload.queue_list st'
        = VideoDownload.queue_list st
          ++ [VideoDownload.DownloadItem (VideoDownload.request_of_values values)]
     /\ VideoDownload.queue_listbox st' = VideoDownload.queue_listbox st
     /\ VideoDownload.log_pane st' = VideoDownload.log_pane st
     /\ VideoDownload.download_queue st' = VideoDownload.download_queue st)
  /\ (VideoDownload.v_url values = "" ->
      VideoDownload.main_step st VideoDownload.ADD_QUEUE values
      = VideoDownload.Continue (VideoDownload.popup_error "Please enter a video URL." st)).
Proof.
  split; intros Hurl.
  - apply String.eqb_neq in Hurl. cbn [VideoDownload.main_step]. rewrite Hurl.
    cbn [negb VideoDownload.set_queue_list VideoDownload.queue_list].
    rewrite vd_queue_labels_with_download. eexists. split; [reflexivity|].
    repeat split.
  - cbn [VideoDownload.main_step]. now rewrite Hurl.
Qed.

Lemma vd_add_queue_always_crashes_witness :
  exists st',
    VideoDownload.main_step VideoDownload.initial_state VideoDownload.ADD_QUEUE
      (vd_values "https://example.org/watch?v=1")
    = VideoDownload.Crash st' (OtherException "KeyError" "'local_file'")
    /\ VideoDownload.queue_listbox st' = [].
Proof.
  destruct (proj1 (vd_add_queue_always_crashes VideoDownload.initial_state
                     (vd_values "https://example.org/watch?v=1")) ltac:(discriminate))
    as [st' [Hstep [_ [Hbox _]]]].
  exists st'. split; [exact Hstep | exact Hbox].
Defined.

Lemma vd_queue_labels_snoc (l : list VideoDownload.queue_item) (labels : list string)
    (file_path model : string) :
  VideoDownload.queue_labels l = Ok labels ->
  VideoDownload.queue_labels (l ++ [VideoDownload.LocalItem file_path model])
  = Ok (labels ++ ["Transcribe: " +:+ os_path_basename file_path]).
Proof.
  revert labels. induction l as [|item l IH]; intros labels.
  - intros [= <-]. reflexivity.
  - cbn [app VideoDownload.queue_labels].
    destruct (VideoDownload.queue_label item) as [label|e]; [|discriminate].
    destruct (VideoDownload.queue_labels l) as [labels'|e]; [|discriminate].
    intros [= <-]. now rewrite (IH labels' eq_refl).
Qed.

Lemma vd_add_local_files_appends (paths : list string) (model : string)
    (st : VideoDownload.ui_state) :
  vd_in_sync st ->
  exists st',
    VideoDownload.add_local_files paths model st = VideoDownload.Continue st'
    /\ VideoDownload.queue_list st'
       = VideoDownload.queue_list st
         ++ map (fun file_path => VideoDownload.LocalItem file_path model)
              (List.filter (fun file_path => negb (String.eqb file_path "")) paths)
    /\ VideoDownload.queue_listbox st'
       = VideoDownload.queue_listbox st
         ++ map (fun file_path => "Transcribe: " +:+ os_path_basename file_path)
              (List.filter (fun file_path => negb (String.eqb file_path "")) paths)
    /\ VideoDownload.download_queue st' = VideoDownload.download_queue st.
Proof.
  revert st. induction paths as [|file_path paths IH]; intros st Hsync.
  - exists st. cbn. now rewrite !app_nil_r.
  - cbn [VideoDownload.add_local_files List.filter].
    destruct (negb (file_path =? "")%string); [|now apply IH].
    cbn [VideoDownload.set_queue_list VideoDownload.queue_list].
    rewrite (vd_queue_labels_snoc _ _ file_path model Hsync).
    match goal with
    | |- context [VideoDownload.add_local_files paths model ?s] =>
        destruct (IH s) as [st' [Hstep [Hlist [Hbox Hqueue]]]]
    end.
    { unfold vd_in_sync. cbn. now apply vd_queue_labels_snoc. }
    exists st'. split; [exact Hstep|]. cbn in Hlist, Hbox, Hqueue.
    rewrite Hlist, Hbox, Hqueue. cbn [map]. now rewrite <- !app_assoc.
Qed.

(** X22.  In [video_download.py], when the pending list holds local files
    only (as it does in every state the loop can be in), choosing files in
    the 'Add Local Files' dialog appends one item per non-empty name of the
    ';'-separated answer, in order, with the model of the form, and the list
    box shows 'Transcribe: ' and the base name of each; the download queue
    is untouched.  A cancelled or empty dialog changes nothing. *)
Theorem vd_add_local_appends_items (st : VideoDownload.ui_state)
    (values : VideoDownload.form_values) (files : string) :
  vd_in_sync st ->
  (files <> "" ->
   exists st',
     VideoDownload.main_step st (VideoDownload.ADD_LOCAL (Some files)) values
     = VideoDownload.Continue st'
     /\ VideoDownload.queue_list st'
        = VideoDownload.queue_list st ++ local_items files (VideoDownload.v_model values)
     /\ VideoDownload.queue_listbox st'
        = VideoDownload.queue_listbox st
          ++ map (fun file_path => "Transcribe: " +:+ os_path_basename file_path)
               (List.filter (fun file_path => negb (String.eqb file_path ""))
                            (str_split ";"%char files))
     /\ VideoDownload.download_queue st' = VideoDownload.download_queue st)
  /\ VideoDownload.main_step st (VideoDownload.ADD_LOCAL None) values
     = VideoDownload.Continue st
  /\ VideoDownload.main_step st (VideoDownload.ADD_LOCAL (Some "")) values
     = VideoDownload.Continue st.
Proof.
  intros Hsync. split; [|split; reflexivity].
  intros Hfiles. apply String.eqb_neq in Hfiles.
  cbn [VideoDownload.main_step]. rewrite Hfiles. cbn [negb].
  now apply vd_add_local_files_appends.
Qed.

Lemma vd_add_local_appends_items_witness :
  exists st',
    VideoDownload.main_step VideoDownload.initial_state
      (VideoDownload.ADD_LOCAL (Some "in/talk.mp3;;lecture.wav")) (vd_values "")
    = VideoDownload.Continue st'
    /\ VideoDownload.queue_list st'
       = [VideoDownload.LocalItem "in/talk.mp3" "turbo";
          VideoDownload.LocalItem "lecture.wav" "turbo"]
    /\ VideoDownload.queue_listbox st' = ["Transcribe: talk.mp3"; "Transcribe: lecture.wav"].
Proof.
  destruct (proj1 (vd_add_local_appends_items VideoDownload.initial_state (vd_values "")
                     "in/talk.mp3;;lecture.wav" eq_refl) ltac:(discriminate))
    as [st' [Hstep [Hlist [Hbox _]]]].
  exists st'. split; [exact Hstep|]. split; [exact Hlist | exact Hbox].
Defined.

Lemma vd_add_local_files_keeps_download_queue (paths : list string) (model : string)
    (st st' : VideoDownload.ui_state) :
  VideoDownload.add_local_files paths model st = VideoDownload.Continue st' ->
  VideoDownload.download_queue st' = VideoDownload.download_queue st.
Proof.
  revert st. induction paths as [|file_path paths IH]; intros st Hstep.
  - now injection Hstep as <-.
  - simpl in Hstep. destruct (negb (file_path =? "")%string); [|now apply IH].
    destruct (VideoDownload.queue_labels _); [|discriminate].
    now rewrite (IH _ Hstep).
Qed.

(** What one turn of either loop does to the download queue: it appends
    entries, none of them the sentinel, or, when the loop is left, it
    appends the sentinel alone. *)
Lemma vd_main_step_download_queue (st : VideoDownload.ui_state) (ev : VideoDownload.event)
    (values : VideoDownload.form_values) :
  match VideoDownload.main_step st ev values with
  | VideoDownload.Continue st' =>
      exists items, VideoDownload.download_queue st'
                    = VideoDownload.download_queue st ++ map Some items
  | VideoDownload.Break st' =>
      VideoDownload.download_queue st' = VideoDownload.download_queue st ++ [None]
  | VideoDownload.Crash st' _ =>
      VideoDownload.download_queue st' = VideoDownload.download_queue st
  end.
Proof.
  destruct ev; cbn [VideoDownload.main_step];
    try reflexivity;
    try (exists []; cbn; now rewrite app_nil_r).
  - destruct (negb (VideoDownload.v_url values =? "")%string);
      [destruct (VideoDownload.queue_labels _); [|reflexivity]|];
      exists []; cbn; now rewrite app_nil_r.
  - destruct files as [fs|]; [|exists []; cbn; now rewrite app_nil_r].
    destruct (negb (fs =? "")%string); [|exists []; cbn; now rewrite app_nil_r].
    destruct (VideoDownload.add_local_files _ _ st) as [st'|st'|st' e] eqn:Hstep.
    + exists []. cbn. rewrite app_nil_r.
      now apply (vd_add_local_files_keeps_download_queue _ _ _ _ Hstep).
    + now apply vd_add_local_files_never_breaks in Hstep.
    + clear -Hstep. revert st Hstep.
      induction (str_split ";"%char fs) as [|file_path paths IH]; intros st Hstep;
        [discriminate|].
      simpl in Hstep. destruct (negb (file_path =? "")%string); [|now apply IH].
      destruct (VideoDownload.queue_labels _) eqn:Hl.
      * now rewrite (IH _ Hstep).
      * now injection Hstep as <- _.
  - destruct (VideoDownload.queue_list st) as [|item l].
    + destruct (negb (VideoDownload.v_url values =? "")%string).
      * now exists [VideoDownload.DownloadItem (VideoDownload.request_of_values values)].
      * exists []. cbn. now rewrite app_nil_r.
    + now exists (item :: l).
  - destruct (negb (VideoDownload.v_audio values)); exists []; cbn; now rewrite app_nil_r.
Qed.

Lemma yt_main_step_download_queue (st : Youtube.ui_state) (ev : Youtube.event)
    (values : Youtube.form_values) :
  match Youtube.main_step st ev values with
  | Youtube.Continue st' =>
      exists items, Youtube.download_queue st' = Youtube.download_queue st ++ map Some items
  | Youtube.Break st' =>
      Youtube.download_queue st' = Youtube.download_queue st ++ [None]
  end.
Proof.
  destruct ev; cbn [Youtube.main_step];
    try reflexivity;
    try (exists []; cbn; now rewrite app_nil_r).
  - destruct (negb (Youtube.v_url values =? "")%string);
      exists []; cbn; now rewrite app_nil_r.
  - destruct (Youtube.queue_list st) as [|item l].
    + destruct (negb (Youtube.v_url values =? "")%string).
      * now exists [Youtube.request_of_values values].
      * exists []. cbn. now rewrite app_nil_r.
    + now exists (item :: l).
Qed.

Lemma vd_main_loop_download_queue
    (inputs : list (VideoDownload.event * VideoDownload.form_values))
    (st : VideoDownload.ui_state) :
  match VideoDownload.main_loop st inputs with
  | VideoDownload.Continue st' =>
      exists items, VideoDownload.download_queue st'
                    = VideoDownload.download_queue st ++ map Some items
  | VideoDownload.Break st' =>
      exists items, VideoDownload.download_queue st'
                    = VideoDownload.download_queue st ++ map Some items ++ [None]
  | VideoDownload.Crash st' _ =>
      exists items, VideoDownload.download_queue st'
                    = VideoDownload.download_queue st ++ map Some items
  end.
Proof.
  revert st. induction inputs as [|[ev values] inputs IH]; intros st.
  - cbn. exists []. cbn. now rewrite app_nil_r.
  - cbn [VideoDownload.main_loop].
    pose proof (vd_main_step_download_queue st ev values) as Hstep.
    destruct (VideoDownload.main_step st ev values) as [st1|st1|st1 e].
    + destruct Hstep as [items1 H1]. specialize (IH st1).
      destruct (VideoDownload.main_loop st1 inputs) as [st'|st'|st' e];
        destruct IH as [items2 H2]; exists (items1 ++ items2);
        rewrite H2, H1, map_app, <- !app_assoc; reflexivity.
    + exists []. exact Hstep.
    + exists []. cbn. now rewrite app_nil_r.
Qed.

Lemma yt_main_loop_download_queue
    (inputs : list (Youtube.event * Youtube.form_values)) (st : Youtube.ui_state) :
  match Youtube.main_loop st inputs with
  | Youtube.Continue st' =>
      exists items, Youtube.download_queue st' = Youtube.download_queue st ++ map Some items
  | Youtube.Break st' =>
      exists items, Youtube.download_queue st'
                    = Youtube.download_queue st ++ map Some items ++ [None]
  end.
Proof.
  revert st. induction inputs as [|[ev values] inputs IH]; intros st.
  - cbn. exists []. cbn. now rewrite app_nil_r.
  - cbn [Youtube.main_loop].
    pose proof (yt_main_step_download_queue st ev values) as Hstep.
    destruct (Youtube.main_step st ev values) as [st1|st1].
    + destruct Hstep as [items1 H1]. specialize (IH st1).
      destruct (Youtube.main_loop st1 inputs) as [st'|st'];
        destruct IH as [items2 H2]; exists (items1 ++ items2);
        rewrite H2, H1, map_app, <- !app_assoc; reflexivity.
    + exists []. exact Hstep.
Qed.

(** X23.  In both scripts the download queue only grows at its end: no
    handler, 'Clear Queue' and 'Abort' included, removes or reorders an
    entry that was handed to the worker.  The stop sentinel is put exactly
    when the loop is left through Exit or the closed window, as the last
    entry; a loop that crashes puts none. *)
Theorem download_queue_only_grows :
  (forall inputs st,
     match VideoDownload.main_loop st inputs with
     | VideoDownload.Continue st' | VideoDownload.Crash st' _ =>
         exists items, VideoDownload.download_queue st'
                       = VideoDownload.download_queue st ++ map Some items
     | VideoDownload.Break st' =>
         exists items, VideoDownload.download_queue st'
                       = VideoDownload.download_queue st ++ map Some items ++ [None]
     end)
  /\ (forall inputs st,
        match Youtube.main_loop st inputs with
        | Youtube.Continue st' =>
            exists items, Youtube.download_queue st'
                          = Youtube.download_queue st ++ map Some items
        | Youtube.Break st' =>
            exists items, Youtube.download_queue st'
                          = Youtube.download_queue st ++ map Some items ++ [None]
        end).
Proof.
  split.
  - intros inputs st. pose proof (vd_main_loop_download_queue inputs st) as H.
    now destruct (VideoDownload.main_loop st inputs).
  - apply yt_main_loop_download_queue.
Qed.

(** ** The event loop and the worker together *)

Lemma attach_answers_items {I A : Type} (script : nat -> A) (items : list I) (n : nat)
    (rest : list (option I)) :
  exists tasks : list (I * A),
    attach_answers script n (map Some items ++ rest)
    = map Some tasks ++ attach_answers script (n + List.length items) rest
    /\ map fst tasks = items.
Proof.
  revert n. induction items as [|item items IH]; intros n.
  - exists []. cbn. now rewrite Nat.add_0_r.
  - destruct (IH (S n)) as [tasks [Heq Hfst]].
    exists ((item, script n) :: tasks). cbn. rewrite Heq, Hfst.
    now replace (S n + List.length items)%nat with (n + S (List.length items))%nat by lia.
Qed.

(** X24.  Leaving the window of [video_download.py] always ends the worker:
    whatever happened in the session and whatever the outside world answers
    to each task, a worker that takes the entries the session put on the
    download queue processes each of them, calls [task_done] once for each,
    and stops at the sentinel.  While the window stays open the worker never
    ends: having processed what was put, it waits. *)
Theorem vd_exit_stops_the_worker
    (inputs : list (VideoDownload.event * VideoDownload.form_values))
    (script : nat -> VideoDownload.answers) :
  match VideoDownload.main_loop VideoDownload.initial_state inputs with
  | VideoDownload.Break st' =>
      exists tasks,
        map (fun t => Some (fst t)) tasks ++ [None] = VideoDownload.download_queue st'
        /\ VideoDownload.process_download_queue
             (attach_answers script 0 (VideoDownload.download_queue st'))
           = (flat_map vd_task_trace tasks, Stopped)
  | VideoDownload.Continue st' =>
      exists tasks,
        map (fun t => Some (fst t)) tasks = VideoDownload.download_queue st'
        /\ VideoDownload.process_download_queue
             (attach_answers script 0 (VideoDownload.download_queue st'))
           = (flat_map vd_task_trace tasks, Blocked)
  | VideoDownload.Crash _ _ => True
  end.
Proof.
  pose proof (vd_main_loop_download_queue inputs VideoDownload.initial_state) as H.
  destruct (VideoDownload.main_loop VideoDownload.initial_state inputs) as [st'|st'|st' e];
    [| |exact I]; destruct H as [items H]; cbn [VideoDownload.initial_state
      VideoDownload.download_queue app] in H.
  - destruct (attach_answers_items script items 0 []) as [tasks [Heq Hfst]].
    exists tasks. rewrite H. split.
    + now rewrite <- Hfst, map_map.
    + rewrite <- (app_nil_r (map Some items)), Heq. cbn [attach_answers].
      rewrite app_nil_r. apply vd_worker_without_sentinel.
  - destruct (attach_answers_items script items 0 [None]) as [tasks [Heq Hfst]].
    exists tasks. rewrite H. split.
    + now rewrite <- Hfst, map_map.
    + rewrite Heq. cbn [attach_answers]. apply vd_worker_drains.
Qed.

Example vd_session_then_exit :
  exists st',
    VideoDownload.main_loop VideoDownload.initial_state
      [ (VideoDownload.ADD_LOCAL (Some "talk.mp3;lecture.wav"), vd_values "");
        (VideoDownload.START_DOWNLOADS, vd_values "");
        (VideoDownload.EXIT, vd_values "") ]
    = VideoDownload.Break st'
    /\ VideoDownload.download_queue st'
       = [ Some (VideoDownload.LocalItem "talk.mp3" "turbo");
           Some (VideoDownload.LocalItem "lecture.wav" "turbo");
           None ]
    /\ (VideoDownload.process_download_queue
          (attach_answers (fun _ => vd_answers false (Ok "hello")) 0
             (VideoDownload.download_queue st'))).2 = Stopped.
Proof. eexists. repeat split; reflexivity. Qed.

Lemma yt_add_all_appends (forms : list Youtube.form_values) (st : Youtube.ui_state)
    (more : list (Youtube.event * Youtube.form_values)) :
  Forall (fun values => Youtube.v_url values <> "") forms ->
  exists st1,
    Youtube.main_loop st (yt_add_all forms ++ more) = Youtube.main_loop st1 more
    /\ Youtube.queue_list st1
       = Youtube.queue_list st ++ map Youtube.request_of_values forms
    /\ Youtube.download_queue st1 = Youtube.download_queue st.
Proof.
  revert st. induction forms as [|values forms IH]; intros st Hforms.
  - exists st. cbn. now rewrite app_nil_r.
  - apply Forall_cons in Hforms. destruct Hforms as [Hurl Hforms].
    apply String.eqb_neq in Hurl.
    cbn [yt_add_all map app Youtube.main_loop Youtube.main_step]. rewrite Hurl. cbn [negb].
    match goal with
    | |- context [Youtube.main_loop ?s (_ ++ more)] =>
        destruct (IH s Hforms) as [st1 [Hloop [Hlist Hqueue]]]
    end.
    exists st1. split; [exact Hloop|]. cbn in Hlist, Hqueue.
    rewrite Hlist, Hqueue. cbn [map]. now rewrite <- app_assoc.
Qed.

(** X25.  [youtube.py] hands the items over first in, first out: after any
    number of 'Add to Queue' presses with a URL filled in, starting from an
    empty pending list, 'Start Downloads' appends to the download queue one
    item per press, in the order of the presses and with the values of each
    form, and leaves the pending list and the list box empty. *)
Theorem yt_start_hands_over_in_order (forms : list Youtube.form_values)
    (st : Youtube.ui_state) (values : Youtube.form_values) :
  Forall (fun v => Youtube.v_url v <> "") forms ->
  forms <> [] ->
  Youtube.queue_list st = [] ->
  exists st',
    Youtube.main_loop st (yt_add_all forms ++ [(Youtube.START_DOWNLOADS, values)])
    = Youtube.Continue st'
    /\ Youtube.download_queue st'
       = Youtube.download_queue st ++ map Some (map Youtube.request_of_values forms)
    /\ Youtube.queue_list st' = []
    /\ Youtube.queue_listbox st' = [].
Proof.
  intros Hforms Hne Hempty.
  destruct (yt_add_all_appends forms st [(Youtube.START_DOWNLOADS, values)] Hforms)
    as [st1 [Hloop [Hlist Hqueue]]].
  rewrite Hloop. rewrite Hempty in Hlist. cbn [app] in Hlist.
  destruct forms as [|v forms]; [contradiction|]. cbn [map] in Hlist.
  cbn [Youtube.main_loop]. unfold Youtube.main_step. rewrite Hlist.
  eexists. split; [reflexivity|]. cbn. rewrite Hqueue. auto.
Qed.

Lemma yt_start_hands_over_in_order_witness :
  exists st',
    Youtube.main_loop Youtube.initial_state
      (yt_add_all [yt_values "https://example.org/watch?v=3";
                   yt_values "https://example.org/watch?v=4"]
       ++ [(Youtube.START_DOWNLOADS, yt_values "")])
    = Youtube.Continue st'
    /\ Youtube.download_queue st'
       = [ Some (yt_clip "https://example.org/watch?v=3");
           Some (yt_clip "https://example.org/watch?v=4") ]
    /\ Youtube.queue_list st' = []
    /\ Youtube.queue_listbox st' = [].
Proof.
  apply (yt_start_hands_over_in_order
           [yt_values "https://example.org/watch?v=3"; yt_values "https://example.org/watch?v=4"]
           Youtube.initial_state (yt_values ""));
    [repeat constructor; discriminate | discriminate | reflexivity].
Defined.

Lemma vd_thread_events_app (values : VideoDownload.form_values) (t1 t2 : list effect) :
  vd_thread_events values (t1 ++ t2)
  = vd_thread_events values t1 ++ vd_thread_events values t2.
Proof.
  induction t1 as [|e t1 IH]; [reflexivity|].
  destruct e; cbn [app vd_thread_events]; now rewrite IH.
Qed.

Lemma yt_thread_events_app (values : Youtube.form_values) (t1 t2 : list effect) :
  yt_thread_events values (t1 ++ t2)
  = yt_thread_events values t1 ++ yt_thread_events values t2.
Proof.
  induction t1 as [|e t1 IH]; [reflexivity|].
  destruct e; cbn [app yt_thread_events]; now rewrite IH.
Qed.

Lemma trace_messages_app (t1 t2 : list effect) :
  trace_messages (t1 ++ t2) = trace_messages t1 ++ trace_messages t2.
Proof.
  induction t1 as [|e t1 IH]; [reflexivity|].
  destruct e; cbn [app trace_messages]; try exact IH.
  destruct (key =? "-MESSAGE-")%string; [cbn; now rewrite IH | exact IH].
Qed.

Lemma vd_main_loop_app (l1 l2 : list (VideoDownload.event * VideoDownload.form_values))
    (st st1 : VideoDownload.ui_state) :
  VideoDownload.main_loop st l1 = VideoDownload.Continue st1 ->
  VideoDownload.main_loop st (l1 ++ l2) = VideoDownload.main_loop st1 l2.
Proof.
  revert st. induction l1 as [|[ev values] l1 IH]; intros st H.
  - now injection H as <-.
  - cbn [app VideoDownload.main_loop] in *.
    destruct (VideoDownload.main_step st ev values); try discriminate. now apply IH.
Qed.

Lemma yt_main_loop_app (l1 l2 : list (Youtube.event * Youtube.form_values))
    (st st1 : Youtube.ui_state) :
  Youtube.main_loop st l1 = Youtube.Continue st1 ->
  Youtube.main_loop st (l1 ++ l2) = Youtube.main_loop st1 l2.
Proof.
  revert st. induction l1 as [|[ev values] l1 IH]; intros st H.
  - now injection H as <-.
  - cbn [app Youtube.main_loop] in *.
    destruct (Youtube.main_step st ev values); try discriminate. now apply IH.
Qed.

(** The events of the worker never end the loop and touch nothing but the
    log pane and the progress bar. *)
Lemma vd_thread_events_handled (values : VideoDownload.form_values) (tr : list effect)
    (st : VideoDownload.ui_state) :
  exists st',
    VideoDownload.main_loop st (vd_thread_events values tr) = VideoDownload.Continue st'
    /\ VideoDownload.log_pane st' = VideoDownload.log_pane st ++ trace_messages tr
    /\ VideoDownload.queue_list st' = VideoDownload.queue_list st
    /\ VideoDownload.queue_listbox st' = VideoDownload.queue_listbox st
    /\ VideoDownload.download_queue st' = VideoDownload.download_queue st
    /\ VideoDownload.abort_event st' = VideoDownload.abort_event st.
Proof.
  revert st. induction tr as [|e tr IH]; intros st.
  - exists st. cbn. now rewrite app_nil_r.
  - destruct e as [| |key v| | |]; cbn [vd_thread_events trace_messages]; try apply IH.
    cbn [VideoDownload.main_loop]. unfold vd_event_of.
    destruct (key =? "-PROGRESS-")%string eqn:Hp.
    { apply String.eqb_eq in Hp. subst key. cbn [String.eqb Ascii.eqb Bool.eqb].
      cbn [VideoDownload.main_step].
      destruct (IH (VideoDownload.set_progress_bar v st)) as [st' H].
      exists st'. exact H. }
    destruct (key =? "-MESSAGE-")%string eqn:Hm.
    { cbn [VideoDownload.main_step].
      destruct (IH (VideoDownload.log_print v st)) as [st' [Hl [Hlog H]]].
      exists st'. split; [exact Hl|]. split; [|exact H].
      rewrite Hlog. cbn. now rewrite <- app_assoc. }
    destruct (key =? "-DOWNLOAD-COMPLETE-")%string.
    { cbn [VideoDownload.main_step].
      destruct (IH (VideoDownload.set_progress_bar (PInt 0) st)) as [st' H].
      exists st'. exact H. }
    cbn [VideoDownload.main_step]. apply IH.
Qed.

Lemma yt_thread_events_handled (values : Youtube.form_values) (tr : list effect)
    (st : Youtube.ui_state) :
  exists st',
    Youtube.main_loop st (yt_thread_events values tr) = Youtube.Continue st'
    /\ Youtube.log_pane st' = Youtube.log_pane st ++ trace_messages tr
    /\ Youtube.queue_list st' = Youtube.queue_list st
    /\ Youtube.queue_listbox st' = Youtube.queue_listbox st
    /\ Youtube.download_queue st' = Youtube.download_queue st
    /\ Youtube.abort_event st' = Youtube.abort_event st.
Proof.
  revert st. induction tr as [|e tr IH]; intros st.
  - exists st. cbn. now rewrite app_nil_r.
  - destruct e as [| |key v| | |]; cbn [yt_thread_events trace_messages]; try apply IH.
    cbn [Youtube.main_loop]. unfold yt_event_of.
    destruct (key =? "-PROGRESS-")%string eqn:Hp.
    { apply String.eqb_eq in Hp. subst key. cbn [String.eqb Ascii.eqb Bool.eqb].
      cbn [Youtube.main_step].
      destruct (IH (Youtube.set_progress_bar v st)) as [st' H].
      exists st'. exact H. }
    destruct (key =? "-MESSAGE-")%string eqn:Hm.
    { cbn [Youtube.main_step].
      destruct (IH (Youtube.log_print v st)) as [st' [Hl [Hlog H]]].
      exists st'. split; [exact Hl|]. split; [|exact H].
      rewrite Hlog. cbn. now rewrite <- app_assoc. }
    destruct (key =? "-DOWNLOAD-COMPLETE-")%string.
    { cbn [Youtube.main_step].
      destruct (IH (Youtube.set_progress_bar (PInt 0) st)) as [st' H].
      exists st'. exact H. }
    cbn [Youtube.main_step]. apply IH.
Qed.

(** X26.  When the UI loop has handled the events of a download task, in
    either script and however the task went, the progress bar shows 0 (the
    '-DOWNLOAD-COMPLETE-' event comes last and resets it, also after a
    reported 100), the log pane has gained the task's messages in the order
    they were emitted, and the pending list, the list box, the download
    queue and the abort flag are as before. *)
Theorem ui_after_download_task :
  (forall st values r a,
     exists st',
       VideoDownload.main_loop st
         (vd_thread_events values (effects (VideoDownload.download_video r a)))
       = VideoDownload.Continue st'
       /\ VideoDownload.progress_bar st' = PInt 0
       /\ VideoDownload.log_pane st'
          = VideoDownload.log_pane st
            ++ trace_messages (effects (VideoDownload.download_video r a))
       /\ VideoDownload.queue_list st' = VideoDownload.queue_list st
       /\ VideoDownload.queue_listbox st' = VideoDownload.queue_listbox st
       /\ VideoDownload.download_queue st' = VideoDownload.download_queue st
       /\ VideoDownload.abort_event st' = VideoDownload.abort_event st)
  /\ (forall st values r a,
        exists st',
          Youtube.main_loop st
            (yt_thread_events values (effects (Youtube.download_video r a)))
          = Youtube.Continue st'
          /\ Youtube.progress_bar st' = PInt 0
          /\ Youtube.log_pane st'
             = Youtube.log_pane st ++ trace_messages (effects (Youtube.download_video r a))
          /\ Youtube.queue_list st' = Youtube.queue_list st
          /\ Youtube.queue_listbox st' = Youtube.queue_listbox st
          /\ Youtube.download_queue st' = Youtube.download_queue st
          /\ Youtube.abort_event st' = Youtube.abort_event st).
Proof.
  split; intros st values r a.
  - unfold VideoDownload.download_video.
    change (write_event_value "-DOWNLOAD-COMPLETE-" (PBool true))
      with (emit (R := unit) (WriteEventValue "-DOWNLOAD-COMPLETE-" (PBool true))).
    rewrite effects_call_fn_try_finally.
    rewrite vd_thread_events_app, trace_messages_app.
    match goal with
    | |- context [vd_thread_events values ?t ++ _] =>
        destruct (vd_thread_events_handled values t st)
          as [st1 [Hloop [Hlog [Hl [Hb [Hq Ha]]]]]]
    end.
    rewrite (vd_main_loop_app _ _ _ _ Hloop).
    eexists. split; [reflexivity|]. cbn [VideoDownload.main_loop]. rewrite app_nil_r.
    exact (conj eq_refl (conj Hlog (conj Hl (conj Hb (conj Hq Ha))))).
  - unfold Youtube.download_video.
    change (write_event_value "-DOWNLOAD-COMPLETE-" (PBool true))
      with (emit (R := unit) (WriteEventValue "-DOWNLOAD-COMPLETE-" (PBool true))).
    rewrite effects_call_fn_try_finally.
    rewrite yt_thread_events_app, trace_messages_app.
    destruct (yt_thread_events_handled values
                (effects (try_except (Youtube.first_attempt r a) (Youtube.handler r a))) st)
      as [st1 [Hloop [Hlog [Hl [Hb [Hq Ha]]]]]].
    rewrite (yt_main_loop_app _ _ _ _ Hloop).
    eexists. split; [reflexivity|]. cbn [Youtube.main_loop]. rewrite app_nil_r.
    exact (conj eq_refl (conj Hlog (conj Hl (conj Hb (conj Hq Ha))))).
Qed.

Lemma vd_abort_stays_set (inputs : list (VideoDownload.event * VideoDownload.form_values))
    (st st' : VideoDownload.ui_state) :
  VideoDownload.main_loop st inputs = VideoDownload.Continue st' ->
  VideoDownload.abort_event st = true -> VideoDownload.abort_event st' = true.
Proof.
  revert st. induction inputs as [|[ev values] inputs IH]; intros st Hloop Hset.
  - injection Hloop as <-. exact Hset.
  - cbn [VideoDownload.main_loop] in Hloop.
    destruct (VideoDownload.main_step st ev values) as [st1|st1|st1 e] eqn:Hstep;
      try discriminate.
    apply (IH st1 Hloop). exact (proj1 abort_event_never_cleared _ _ _ _ Hstep Hset).
Qed.

Lemma yt_abort_stays_set (inputs : list (Youtube.event * Youtube.form_values))
    (st st' : Youtube.ui_state) :
  Youtube.main_loop st inputs = Youtube.Continue st' ->
  Youtube.abort_event st = true -> Youtube.abort_event st' = true.
Proof.
  revert st. induction inputs as [|[ev values] inputs IH]; intros st Hloop Hset.
  - injection Hloop as <-. exact Hset.
  - cbn [Youtube.main_loop] in Hloop.
    destruct (Youtube.main_step st ev values) as [st1|st1] eqn:Hstep; try discriminate.
    apply (IH st1 Hloop). exact (proj2 abort_event_never_cleared _ _ _ _ Hstep Hset).
Qed.

(** X27.  The abort is permanent.  In both scripts the Abort button sets the
    flag, and no later event (starting downloads, clearing or filling the
    queue, messages of the worker) clears it again: in every state the loop
    reaches after an Abort the flag is set. *)
Theorem abort_is_permanent :
  (forall st values inputs st1 st',
     VideoDownload.main_step st VideoDownload.ABORT values = VideoDownload.Continue st1 ->
     VideoDownload.main_loop st1 inputs = VideoDownload.Continue st' ->
     VideoDownload.abort_event st' = true)
  /\ (forall st values inputs st1 st',
        Youtube.main_step st Youtube.ABORT values = Youtube.Continue st1 ->
        Youtube.main_loop st1 inputs = Youtube.Continue st' ->
        Youtube.abort_event st' = true).
Proof.
  split; intros st values inputs st1 st' Hstep Hloop.
  - apply (vd_abort_stays_set inputs st1 st' Hloop). now injection Hstep as <-.
  - apply (yt_abort_stays_set inputs st1 st' Hloop). now injection Hstep as <-.
Qed.

Lemma abort_is_permanent_witness :
  exists st',
    Youtube.main_loop Youtube.initial_state
      ((Youtube.ABORT, yt_values "") :: yt_session
       ++ [(Youtube.START_DOWNLOADS, yt_values "https://example.org/watch?v=4")])
    = Youtube.Continue st'
    /\ Youtube.download_queue st' = [Some (yt_clip "https://example.org/watch?v=4")]
    /\ Youtube.abort_event st' = true.
Proof.
  eexists. split; [reflexivity|]. split; [reflexivity|].
  eapply (proj2 abort_is_permanent Youtube.initial_state (yt_values "")
            (yt_session ++ [(Youtube.START_DOWNLOADS, yt_values "https://example.org/watch?v=4")]));
    reflexivity.
Defined.
